(** * Jellyfin library statistics cog: a shallow embedding

    The development follows [jellyfin_library_stats.py].  Python strings are
    byte strings ([string]); the collaborators of the cog (the Jellyfin HTTP
    API, the Discord client, the clock) are oracles gathered in a [World];
    coroutines are computations in a state-and-exception monad whose state
    holds the persistent configuration and the chronological trace of the
    effects the cog performs (requests, error-level log records, Discord
    calls, configuration writes, sleeps).  Info-level log records are not
    traced.  Every exception of the model derives from [Exception], as the
    transport, decoding and Discord errors do; task cancellation, which no
    handler of the cog catches, is outside the model. *)

From Stdlib Require Import String Ascii List ZArith Bool Lia DecimalString.
Import ListNotations.

Local Open Scope string_scope.
Local Open Scope Z_scope.

(* ================================================================== *)
(** ** Python strings *)

Module PyStr.

(** [str.lower] on one character: the letters [A]..[Z] move to [a]..[z],
    every other byte is kept.  The cog lower-cases a string only to look
    for "playlist", "tvshows" or "tv" in it; the letters of these words are
    the lower case of ASCII letters alone, so the bytes of other characters
    do not bear on the tests. *)
Definition lower_ascii (c : ascii) : ascii :=
  let n := nat_of_ascii c in
  if ((65 <=? n) && (n <=? 90))%nat then ascii_of_nat (n + 32) else c.

(** [s.lower()] *)
Fixpoint lower (s : string) : string :=
  match s with
  | EmptyString => EmptyString
  | String c s' => String (lower_ascii c) (lower s')
  end.

(** [pat in s] *)
Fixpoint str_in (pat s : string) : bool :=
  prefix pat s ||
  match s with
  | EmptyString => false
  | String _ s' => str_in pat s'
  end.

(** [s.endswith(suf)] *)
Fixpoint endswith (s suf : string) : bool :=
  (s =? suf)%string ||
  match s with
  | EmptyString => false
  | String _ s' => endswith s' suf
  end.

(** [s[:-1]] *)
Fixpoint drop_last (s : string) : string :=
  match s with
  | EmptyString => EmptyString
  | String c EmptyString => EmptyString
  | String c s' => String c (drop_last s')
  end.

(** [str(n)] for an integer *)
Definition str_of_int (n : Z) : string := NilZero.string_of_int (Z.to_int n).

(** Truth value of an optional string: [None] and [""] are false. *)
Definition truthy (o : option string) : bool :=
  match o with
  | Some (String _ _) => true
  | _ => false
  end.

(** Truth value of an optional integer: [None] and [0] are false. *)
Definition truthy_int (o : option Z) : bool :=
  match o with
  | Some n => negb (n =? 0)
  | None => false
  end.

(** [f"{x}"] for a value that is a string or [None]. *)
Definition format (o : option string) : string :=
  match o with
  | Some s => s
  | None => "None"
  end.

(** The line feed of the ["\n"] escapes. *)
Definition nl : string := String (ascii_of_nat 10) EmptyString.

(** [sep.join(parts)] *)
Fixpoint join (sep : string) (parts : list string) : string :=
  match parts with
  | [] => EmptyString
  | [part] => part
  | part :: rest => part ++ sep ++ join sep rest
  end.

(** [s[:n]] *)
Definition take (n : nat) (s : string) : string := substring 0 n s.

End PyStr.
Import PyStr.

(* ================================================================== *)
(** ** Data *)

(** A member of a JSON object that the code expects to be a string: the key
    may be absent, or hold [null] (which here also stands for any value with
    no [lower] method), or hold a string. *)
Inductive jfield : Type :=
| Missing
| Null
| JStr (s : string).

(** [obj.get(key)]: [None] when the key is absent or null. *)
Definition dict_get_field (f : jfield) : option string :=
  match f with
  | JStr s => Some s
  | _ => None
  end.

(** [obj.get(key, '')] *)
Definition dict_get_field_default (f : jfield) : option string :=
  match f with
  | Missing => Some ""
  | Null => None
  | JStr s => Some s
  end.

(** One entry of the [Items] list of [/Library/MediaFolders]. *)
Record library : Type := mkLibrary {
  Id : jfield;
  Name : jfield;
  CollectionType : jfield
}.

(** Answer to a GET: the request raises, or gives a status and a body;
    body [None] is a body whose decoding (or whose use as a JSON object)
    raises. *)
Inductive http_reply (A : Type) : Type :=
| GetRaises
| Response (status : Z) (body : option A).
Arguments GetRaises {A}.
Arguments Response {A} status body.

(** Answer of a Discord call that may fail. *)
Inductive discord_reply : Type :=
| DiscordOk
| DiscordNotFound
| DiscordError.

(** [library_stats]: a Python dict from library name to count, in insertion
    order. *)
Definition stats := list (string * Z).

(** [d[k] = v]: an existing key keeps its place, a new key goes last. *)
Fixpoint stats_set (d : stats) (k : string) (v : Z) : stats :=
  match d with
  | [] => [(k, v)]
  | (k', v') :: d' =>
      if (k' =? k)%string then (k, v) :: d' else (k', v') :: stats_set d' k v
  end.

Fixpoint stats_get (d : stats) (k : string) : option Z :=
  match d with
  | [] => None
  | (k', v') :: d' => if (k' =? k)%string then Some v' else stats_get d' k
  end.

(** Truth value of a dict: false when empty. *)
Definition stats_truthy (d : stats) : bool :=
  match d with
  | [] => false
  | _ :: _ => true
  end.

(** The [discord.Embed] built by [update_stats] (the colour is constant and
    left out). *)
Record Embed : Type := mkEmbed {
  title : string;
  description : string;
  fields : list (string * string)
}.

(** The global configuration registered by the cog. *)
Record Config : Type := mkConfig {
  jellyfin_url : option string;
  jellyfin_api_key : option string;
  update_channel_id : option Z;
  update_message_id : option Z;
  last_update : option string
}.

(** [register_global] defaults. *)
Definition default_config : Config := mkConfig None None None None None.

Inductive config_key : Type :=
| K_jellyfin_url
| K_jellyfin_api_key
| K_update_channel_id
| K_update_message_id
| K_last_update.

Inductive config_value : Type :=
| VStr (s : string)
| VInt (n : Z).

(** The [log.error] call sites. *)
Inductive log_error : Type :=
| ConnectionFailed (status : Z)
| ExceptionTestingConnection
| UrlOrKeyNotConfigured
| ErrorAccessingItems (name : string) (status : Z)
| ExceptionGettingCount (name : string)
| NoStatisticsFound
| ErrorAccessingLibraries (status : Z)
| GeneralExceptionFetching
| ConfigurationNotComplete
| ChannelNotFound (id : Z)
| MessageNotFound (id : Z)
| ErrorUpdatingMessage
| CouldNotFetchStatistics
| GeneralErrorUpdating
| ErrorInBackgroundTask.

(** What the cog does to the outside. *)
Inductive event : Type :=
| HttpGet (url token : string)
| LogError (e : log_error)
| GetChannel (id : Z)
| FetchMessage (id : Z)
| EditMessage (id : Z) (content : string) (embed : Embed)
| ChannelSend (channel : Z) (content : string)
| CtxSend (content : string)
| ConfigSet (k : config_key) (v : config_value)
| Sleep (seconds : Z).

(** The collaborators, as seen during one run. *)
Record World : Type := mkWorld {
  system_info : http_reply unit;
  media_folders : http_reply (option (list library));
  (** answer to the n-th [/Items] request of the run; the body is the
      [TotalRecordCount] member, [None] when the key is absent *)
  items : nat -> http_reply (option Z);
  get_channel : Z -> bool;
  channel_send : option Z;
  fetch_message : discord_reply;
  message_edit : discord_reply;
  now_display : string;
  now_iso : string
}.

(* ================================================================== *)
(** ** Coroutines: state and exceptions *)

(** The exceptions the modelled calls raise; all derive from [Exception]. *)
Inductive exn : Type :=
| AttributeError
| ClientError
| DecodeError
| NotFound
| HTTPException.

Inductive result (A : Type) : Type :=
| Val (a : A)
| Raise (e : exn).
Arguments Val {A} a.
Arguments Raise {A} e.

Record Store : Type := mkStore {
  config : Config;
  trace : list event
}.

Definition M (A : Type) : Type := Store -> result A * Store.

Definition ret {A} (a : A) : M A := fun s => (Val a, s).

Definition bind {A B} (m : M A) (k : A -> M B) : M B :=
  fun s =>
    match m s with
    | (Val a, s') => k a s'
    | (Raise e, s') => (Raise e, s')
    end.

Definition raise {A} (e : exn) : M A := fun s => (Raise e, s).

Notation "x <- m ;; k" := (bind m (fun x => k))
  (at level 61, m at next level, right associativity).
Notation "m ;; k" := (bind m (fun _ => k))
  (at level 61, right associativity).

(** [try: body / except Exception as e: handler(e)], followed by [rest]
    when the body ends without raising. *)
Definition try_except {A B} (body : M A) (handler : exn -> M B) (rest : A -> M B) : M B :=
  fun s =>
    match body s with
    | (Val a, s') => rest a s'
    | (Raise e, s') => handler e s'
    end.

Definition emit (ev : event) : M unit :=
  fun s => (Val tt, mkStore (config s) (trace s ++ [ev])).

Definition log_err (e : log_error) : M unit := emit (LogError e).

Definition config_read {A} (f : Config -> A) : M A :=
  fun s => (Val (f (config s)), s).

Definition config_update (k : config_key) (v : config_value) (c : Config) : Config :=
  match k, v with
  | K_jellyfin_url, VStr s =>
      mkConfig (Some s) (jellyfin_api_key c) (update_channel_id c) (update_message_id c) (last_update c)
  | K_jellyfin_api_key, VStr s =>
      mkConfig (jellyfin_url c) (Some s) (update_channel_id c) (update_message_id c) (last_update c)
  | K_update_channel_id, VInt n =>
      mkConfig (jellyfin_url c) (jellyfin_api_key c) (Some n) (update_message_id c) (last_update c)
  | K_update_message_id, VInt n =>
      mkConfig (jellyfin_url c) (jellyfin_api_key c) (update_channel_id c) (Some n) (last_update c)
  | K_last_update, VStr s =>
      mkConfig (jellyfin_url c) (jellyfin_api_key c) (update_channel_id c) (update_message_id c) (Some s)
  | _, _ => c
  end.

(** [await self.config.<k>.set(v)] *)
Definition config_set (k : config_key) (v : config_value) : M unit :=
  fun s => (Val tt, mkStore (config_update k v (config s)) (trace s ++ [ConfigSet k v])).

(** [session.get(url, headers={"X-Emby-Token": token})] *)
Definition http_get {A} (reply : http_reply A) (url token : string) : M (Z * option A) :=
  emit (HttpGet url token) ;;
  match reply with
  | GetRaises => raise ClientError
  | Response status body => ret (status, body)
  end.

(** [await response.json()] and the use of the result as an object *)
Definition json {A} (body : option A) : M A :=
  match body with
  | Some a => ret a
  | None => raise DecodeError
  end.

(** A method call on a value that may be [None]. *)
Definition not_none {A} (o : option A) : M A :=
  match o with
  | Some a => ret a
  | None => raise AttributeError
  end.

Definition discord_call (r : discord_reply) : M unit :=
  match r with
  | DiscordOk => ret tt
  | DiscordNotFound => raise NotFound
  | DiscordError => raise HTTPException
  end.

(* ================================================================== *)
(** ** The cog *)

Module JellyfinLibraryStats.

(** [test_connection] *)
Definition test_connection (w : World) : M bool :=
  jellyfin_url <- config_read jellyfin_url ;;
  api_key <- config_read jellyfin_api_key ;;
  if negb (truthy jellyfin_url) || negb (truthy api_key) then
    ret false
  else
    try_except
      (r <- http_get (system_info w) (format jellyfin_url ++ "/System/Info") (format api_key) ;;
       let '(status, _) := r in
       if status =? 200 then
         ret true
       else
         log_err (ConnectionFailed status) ;;
         ret false)
      (fun e =>
         log_err ExceptionTestingConnection ;;
         ret false)
      ret.

(** The test on the lower-cased collection type. *)
Definition is_tv (collection_type : string) : bool :=
  str_in "tvshows" collection_type || str_in "tv" collection_type.

(** The two f-strings that build [items_url]. *)
Definition items_url (jellyfin_url library_id collection_type : string) : string :=
  if is_tv collection_type then
    jellyfin_url ++ "/Items?ParentId=" ++ library_id
      ++ "&IncludeItemTypes=Series&Recursive=true&Limit=0"
  else
    jellyfin_url ++ "/Items?ParentId=" ++ library_id
      ++ "&Recursive=true&Limit=0".

(** The inner [try] of the loop body: the count request of one retained
    library, the [n]-th [/Items] request of the run. *)
Definition count_items (w : World) (jellyfin_url api_key : string) (n : nat)
    (library_id : option string) (library_name collection_type : string)
    (library_stats : stats) : M stats :=
  try_except
    (r <- http_get (items w n)
            (items_url jellyfin_url (format library_id) collection_type) api_key ;;
     let '(status, body) := r in
     if status =? 200 then
       items_data <- json body ;;
       let total_records := match items_data with Some c => c | None => 0 end in
       ret (stats_set library_stats library_name total_records)
     else
       log_err (ErrorAccessingItems library_name status) ;;
       ret (stats_set library_stats library_name 0))
    (fun e =>
       log_err (ExceptionGettingCount library_name) ;;
       ret (stats_set library_stats library_name 0))
    ret.

(** [for library in libraries: ...] *)
Fixpoint for_libraries (w : World) (jellyfin_url api_key : string)
    (libraries : list library) (n : nat) (library_stats : stats) : M stats :=
  match libraries with
  | [] => ret library_stats
  | library :: rest =>
      let library_id := dict_get_field (Id library) in
      library_name <- not_none (dict_get_field (Name library)) ;;
      if str_in "playlist" (lower library_name) then
        for_libraries w jellyfin_url api_key rest n library_stats
      else
        collection_type <- not_none (dict_get_field_default (CollectionType library)) ;;
        let collection_type := lower collection_type in
        library_stats <- count_items w jellyfin_url api_key n
                           library_id library_name collection_type library_stats ;;
        for_libraries w jellyfin_url api_key rest (S n) library_stats
  end.

(** [fetch_jellyfin_libraries] *)
Definition fetch_jellyfin_libraries (w : World) : M (option stats) :=
  jellyfin_url <- config_read jellyfin_url ;;
  api_key <- config_read jellyfin_api_key ;;
  if negb (truthy jellyfin_url) || negb (truthy api_key) then
    log_err UrlOrKeyNotConfigured ;;
    ret None
  else
    try_except
      (r <- http_get (media_folders w)
              (format jellyfin_url ++ "/Library/MediaFolders") (format api_key) ;;
       let '(status, body) := r in
       if status =? 200 then
         libraries_data <- json body ;;
         let libraries := match libraries_data with Some l => l | None => [] end in
         library_stats <- for_libraries w (format jellyfin_url) (format api_key)
                            libraries 0 [] ;;
         if stats_truthy library_stats then
           ret (Some library_stats)
         else
           log_err NoStatisticsFound ;;
           ret None
       else
         log_err (ErrorAccessingLibraries status) ;;
         ret None)
      (fun e =>
         log_err GeneralExceptionFetching ;;
         ret None)
      ret.

(** The embed of [update_stats]: one field per entry of the dict. *)
Definition build_embed (w : World) (library_stats : stats) : Embed :=
  mkEmbed "📊 Freia Library Statistics"
          ("Updated at: " ++ now_display w)
          (map (fun '(library_name, item_count) => (library_name, str_of_int item_count))
               library_stats).

Definition int_of (o : option Z) : Z :=
  match o with
  | Some n => n
  | None => 0
  end.

(** [update_stats] *)
Definition update_stats (force_update : bool) (w : World) : M bool :=
  jellyfin_url <- config_read jellyfin_url ;;
  channel_id <- config_read update_channel_id ;;
  message_id <- config_read update_message_id ;;
  if negb (truthy jellyfin_url && truthy_int channel_id && truthy_int message_id) then
    log_err ConfigurationNotComplete ;;
    ret false
  else
    let channel_id := int_of channel_id in
    let message_id := int_of message_id in
    try_except
      (library_stats <- fetch_jellyfin_libraries w ;;
       match library_stats with
       | Some ((_ :: _) as library_stats) =>
           emit (GetChannel channel_id) ;;
           if negb (get_channel w channel_id) then
             log_err (ChannelNotFound channel_id) ;;
             ret false
           else
             let embed := build_embed w library_stats in
             try_except
               (emit (FetchMessage message_id) ;;
                discord_call (fetch_message w) ;;
                emit (EditMessage message_id "" embed) ;;
                discord_call (message_edit w))
               (fun e =>
                  match e with
                  | NotFound =>
                      log_err (MessageNotFound message_id) ;;
                      ret false
                  | _ =>
                      log_err ErrorUpdatingMessage ;;
                      ret false
                  end)
               (fun _ =>
                  config_set K_last_update (VStr (now_iso w)) ;;
                  ret true)
       | _ =>
           log_err CouldNotFetchStatistics ;;
           ret false
       end)
      (fun e =>
         log_err GeneralErrorUpdating ;;
         ret false)
      ret.

(** The normalisation at the head of [setup_jellyfin_stats]. *)
Definition strip_slash (jellyfin_url : string) : string :=
  if endswith jellyfin_url "/" then drop_last jellyfin_url else jellyfin_url.

(** [setup_jellyfin_stats] *)
Definition setup_jellyfin_stats (w : World) (jellyfin_url api_key : string)
    (channel : Z) : M unit :=
  let jellyfin_url := strip_slash jellyfin_url in
  config_set K_jellyfin_url (VStr jellyfin_url) ;;
  config_set K_jellyfin_api_key (VStr api_key) ;;
  config_set K_update_channel_id (VInt channel) ;;
  emit (ChannelSend channel "Updating Freia library statistics...") ;;
  message <- match channel_send w with
             | Some id => ret id
             | None => raise HTTPException
             end ;;
  config_set K_update_message_id (VInt message) ;;
  success <- test_connection w ;;
  (if success then
     emit (CtxSend "Connection to Jellyfin has been tested and works!")
   else
     emit (CtxSend "⚠️ Configuration saved, but the connection test failed. Check URL and API key.")) ;;
  update_stats true w ;;
  emit (CtxSend "Jellyfin stats configuration completed!").


(** [await asyncio.sleep(seconds)] *)
Definition sleep (seconds : Z) : M unit := emit (Sleep seconds).

(** The body of the [while] loop of [background_update]. *)
Definition background_iteration (w : World) : M unit :=
  try_except
    (update_stats false w ;;
     sleep 604800)
    (fun e =>
       log_err ErrorInBackgroundTask ;;
       sleep 3600)
    ret.

(** How a bounded run of the loop ends. *)
Inductive loop_end : Type :=
| BotClosed
| StillRunning.

(** [background_update], for at most [fuel] iterations: [closed i] is the
    answer of [self.bot.is_closed()] before iteration [i], [worlds i] the
    collaborators during it. *)
Fixpoint background_update (fuel : nat) (closed : nat -> bool)
    (worlds : nat -> World) (i : nat) : M loop_end :=
  match fuel with
  | O => ret StillRunning
  | S fuel' =>
      if closed i then
        ret BotClosed
      else
        background_iteration (worlds i) ;;
        background_update fuel' closed worlds (S i)
  end.

(** [jellyfin_stats], the command group; [invoked_subcommand] tells whether
    a subcommand was given. *)
Definition jellyfin_stats (invoked_subcommand : bool) : M unit :=
  if negb invoked_subcommand then
    url <- config_read jellyfin_url ;;
    channel_id <- config_read update_channel_id ;;
    if truthy url && truthy_int channel_id then
      emit (CtxSend ("Current configuration:" ++ nl
                     ++ "Jellyfin URL: " ++ format url ++ nl
                     ++ "Update channel: <#" ++ str_of_int (int_of channel_id) ++ ">"))
    else
      emit (CtxSend "No saved configuration. Use !jellyfinstats setup to configure.")
  else
    ret tt.


(** [data.get('Version', 'N/A')] inside an f-string *)
Definition format_version (version : jfield) : string :=
  match version with
  | Missing => "N/A"
  | Null => "None"
  | JStr s => s
  end.

(** [debug_info.append(line)] *)
Definition append_line (debug_info : list string) (line : string) : list string :=
  (debug_info ++ [line])%list.

(** The lines [debug_api] adds for the entries of the listing. *)
Fixpoint append_items (debug_info : list string) (items : list library) : list string :=
  match items with
  | [] => debug_info
  | item :: rest =>
      append_items
        (append_line debug_info
           ("- ID: " ++ format (dict_get_field (Id item))
            ++ ", Name: " ++ format (dict_get_field (Name item))))
        rest
  end.

(** [debug_api].  [version] is the [Version] member of the decoded answer of
    [/System/Info] and [str_exn] gives [str(e)] for an exception.  The list
    [debug_info] is local to the command: each of the two [try] blocks is
    written with its handler at the request and at the decoding of the
    body, the two places where it can raise, so that the handler appends to
    the lines gathered so far. *)
Definition debug_api (w : World) (version : jfield) (str_exn : exn -> string) : M unit :=
  jellyfin_url <- config_read jellyfin_url ;;
  api_key <- config_read jellyfin_api_key ;;
  if negb (truthy jellyfin_url) || negb (truthy api_key) then
    emit (CtxSend "No saved configuration.")
  else
    let jellyfin_url := format jellyfin_url in
    let api_key := format api_key in
    let debug_info := [] in
    let debug_info := append_line debug_info ("**Jellyfin URL**: " ++ jellyfin_url) in
    let debug_info :=
      append_line debug_info
        ("**API Key** (first 4 characters): " ++ take 4 api_key ++ "...") in
    debug_info <-
      (let url := jellyfin_url ++ "/System/Info" in
       let debug_info :=
         append_line debug_info (nl ++ "**Testing endpoint**: `" ++ url ++ "`") in
       try_except
         (http_get (system_info w) url api_key)
         (fun e => ret (append_line debug_info ("❌ Exception: " ++ str_exn e)))
         (fun r =>
            let '(status, body) := r in
            let debug_info := append_line debug_info ("Status: " ++ str_of_int status) in
            if status =? 200 then
              try_except
                (json body)
                (fun e => ret (append_line debug_info ("❌ Exception: " ++ str_exn e)))
                (fun data =>
                   ret (append_line debug_info
                          ("Jellyfin Version: " ++ format_version version)))
            else
              ret (append_line debug_info "❌ Error accessing server information"))) ;;
    debug_info <-
      (let url := jellyfin_url ++ "/Library/MediaFolders" in
       let debug_info :=
         append_line debug_info (nl ++ "**Testing endpoint**: `" ++ url ++ "`") in
       try_except
         (http_get (media_folders w) url api_key)
         (fun e => ret (append_line debug_info ("❌ Exception: " ++ str_exn e)))
         (fun r =>
            let '(status, body) := r in
            let debug_info := append_line debug_info ("Status: " ++ str_of_int status) in
            if status =? 200 then
              try_except
                (json body)
                (fun e => ret (append_line debug_info ("❌ Exception: " ++ str_exn e)))
                (fun data =>
                   let items := match data with Some l => l | None => [] end in
                   let debug_info :=
                     append_line debug_info
                       ("Number of libraries: " ++ str_of_int (Z.of_nat (length items))) in
                   ret (append_items debug_info items))
            else
              ret (append_line debug_info "❌ Error accessing libraries"))) ;;
    emit (CtxSend (join nl debug_info)).

End JellyfinLibraryStats.
Import JellyfinLibraryStats.

(** Running a coroutine from a configuration, with an empty trace. *)
Definition run {A} (m : M A) (c : Config) : result A * Store := m (mkStore c []).

(* ================================================================== *)
(** ** Vocabulary of the statements *)

(** The URL and the API key are both set and non-empty. *)
Definition configured (c : Config) : Prop :=
  truthy (jellyfin_url c) = true /\ truthy (jellyfin_api_key c) = true.

(** [name] has a substring that is "playlist" up to letter case. *)
Definition playlist_any_case (name : string) : Prop :=
  exists before middle after,
    name = before ++ middle ++ after /\ lower middle = "playlist".

(** The library is skipped by the playlist test of the loop. *)
Definition is_playlist (lib : library) : bool :=
  match Name lib with
  | JStr name => str_in "playlist" (lower name)
  | _ => false
  end.

(** The loop body reads the library without raising: the name is a string
    and, for a library that is not skipped, the collection type is not
    null. *)
Definition readable (lib : library) : bool :=
  match Name lib with
  | JStr name =>
      str_in "playlist" (lower name) ||
      match CollectionType lib with
      | Null => false
      | _ => true
      end
  | _ => false
  end.

(** The libraries that reach the count request, in the order of the
    listing. *)
Definition retained (libs : list library) : list library :=
  filter (fun lib => negb (is_playlist lib)) libs.

Definition lib_name (lib : library) : string := format (dict_get_field (Name lib)).

(** The lower-cased collection type the loop tests. *)
Definition lib_type (lib : library) : string :=
  lower (format (dict_get_field_default (CollectionType lib))).

(** The count query of a library. *)
Definition lib_query (url : string) (lib : library) : string :=
  items_url url (format (dict_get_field (Id lib))) (lib_type lib).

(** The count request did not give a count: it raised, or the status is not
    200, or the body could not be decoded. *)
Definition count_failed (r : http_reply (option Z)) : Prop :=
  match r with
  | GetRaises => True
  | Response status body => status <> 200 \/ body = None
  end.

(** The value the loop stores for a count request. *)
Definition recorded (r : http_reply (option Z)) : Z :=
  match r with
  | Response status (Some (Some c)) => if status =? 200 then c else 0
  | _ => 0
  end.

(** The dict after the loop has run over readable libraries. *)
Fixpoint loop_stats (w : World) (libs : list library) (n : nat) (d : stats) : stats :=
  match libs with
  | [] => d
  | lib :: rest =>
      if is_playlist lib then loop_stats w rest n d
      else loop_stats w rest (S n) (stats_set d (lib_name lib) (recorded (items w n)))
  end.

(** The effects of one count request. *)
Definition count_trace (w : World) (url key : string) (n : nat) (lib : library) : list event :=
  HttpGet (lib_query url lib) key ::
  match items w n with
  | GetRaises => [LogError (ExceptionGettingCount (lib_name lib))]
  | Response status body =>
      if status =? 200 then
        match body with
        | Some _ => []
        | None => [LogError (ExceptionGettingCount (lib_name lib))]
        end
      else [LogError (ErrorAccessingItems (lib_name lib) status)]
  end.

(** The effects of the loop over readable libraries. *)
Fixpoint loop_trace (w : World) (url key : string) (libs : list library) (n : nat) : list event :=
  match libs with
  | [] => []
  | lib :: rest =>
      if is_playlist lib then loop_trace w url key rest n
      else count_trace w url key n lib ++ loop_trace w url key rest (S n)
  end.

(** The events the loop can add to the trace. *)
Definition loop_event (ev : event) : Prop :=
  match ev with
  | HttpGet _ _ => True
  | LogError (ErrorAccessingItems _ _) => True
  | LogError (ExceptionGettingCount _) => True
  | _ => False
  end.

(** The URLs requested, in order. *)
Fixpoint requests (tr : list event) : list string :=
  match tr with
  | [] => []
  | HttpGet url _ :: tr' => url :: requests tr'
  | _ :: tr' => requests tr'
  end.

(** The events by which [update_stats] touches the tracked message or the
    configuration. *)
Definition publish_event (ev : event) : Prop :=
  match ev with
  | FetchMessage _ | EditMessage _ _ _ | ConfigSet _ _ => True
  | _ => False
  end.

(** The events [fetch_jellyfin_libraries] can add to the trace. *)
Definition fetch_event (ev : event) : Prop :=
  match ev with
  | HttpGet _ _ => True
  | LogError UrlOrKeyNotConfigured => True
  | LogError (ErrorAccessingItems _ _) => True
  | LogError (ExceptionGettingCount _) => True
  | LogError NoStatisticsFound => True
  | LogError (ErrorAccessingLibraries _) => True
  | LogError GeneralExceptionFetching => True
  | _ => False
  end.

(** The base URL, the token and the listing URL a run uses. *)
Definition base_url (c : Config) : string := format (jellyfin_url c).
Definition token (c : Config) : string := format (jellyfin_api_key c).
Definition folders_url (c : Config) : string := base_url c ++ "/Library/MediaFolders".

(** The [Items] member of the listing, [[]] when the key is absent. *)
Definition listing (body : option (list library)) : list library :=
  match body with
  | Some libs => libs
  | None => []
  end.

(** The ways [fetch_jellyfin_libraries] ends: what it returns and what it
    adds to the trace. *)
Inductive fetch_outcome (w : World) (c : Config) : option stats -> list event -> Prop :=
| FetchUnconfigured :
    truthy (jellyfin_url c) && truthy (jellyfin_api_key c) = false ->
    fetch_outcome w c None [LogError UrlOrKeyNotConfigured]
| FetchRaises :
    configured c ->
    media_folders w = GetRaises ->
    fetch_outcome w c None
      [HttpGet (folders_url c) (token c); LogError GeneralExceptionFetching]
| FetchStatus (status : Z) (body : option (option (list library))) :
    configured c ->
    media_folders w = Response status body ->
    status <> 200 ->
    fetch_outcome w c None
      [HttpGet (folders_url c) (token c); LogError (ErrorAccessingLibraries status)]
| FetchUndecodable :
    configured c ->
    media_folders w = Response 200 None ->
    fetch_outcome w c None
      [HttpGet (folders_url c) (token c); LogError GeneralExceptionFetching]
| FetchUnreadable (body : option (list library)) (evs : list event) :
    configured c ->
    media_folders w = Response 200 (Some body) ->
    forallb readable (listing body) = false ->
    Forall loop_event evs ->
    fetch_outcome w c None
      (HttpGet (folders_url c) (token c) :: evs ++ [LogError GeneralExceptionFetching])
| FetchEmpty (body : option (list library)) :
    configured c ->
    media_folders w = Response 200 (Some body) ->
    forallb readable (listing body) = true ->
    retained (listing body) = [] ->
    fetch_outcome w c None
      (HttpGet (folders_url c) (token c)
         :: loop_trace w (base_url c) (token c) (listing body) 0
         ++ [LogError NoStatisticsFound])
| FetchReport (body : option (list library)) :
    configured c ->
    media_folders w = Response 200 (Some body) ->
    forallb readable (listing body) = true ->
    retained (listing body) <> [] ->
    fetch_outcome w c (Some (loop_stats w (listing body) 0 []))
      (HttpGet (folders_url c) (token c)
         :: loop_trace w (base_url c) (token c) (listing body) 0).

(** The test at the head of [update_stats]. *)
Definition complete (c : Config) : bool :=
  truthy (jellyfin_url c) && truthy_int (update_channel_id c)
  && truthy_int (update_message_id c).

(** What [update_stats] does once the fetch has returned [o]: the result,
    the configuration and the events added. *)
Definition publish_outcome (w : World) (c : Config) (o : option stats)
  : bool * Config * list event :=
  let cid := int_of (update_channel_id c) in
  let mid := int_of (update_message_id c) in
  match o with
  | Some ((_ :: _) as d) =>
      if get_channel w cid then
        match fetch_message w with
        | DiscordOk =>
            match message_edit w with
            | DiscordOk =>
                (true, config_update K_last_update (VStr (now_iso w)) c,
                 [GetChannel cid; FetchMessage mid; EditMessage mid "" (build_embed w d);
                  ConfigSet K_last_update (VStr (now_iso w))])
            | DiscordNotFound =>
                (false, c,
                 [GetChannel cid; FetchMessage mid; EditMessage mid "" (build_embed w d);
                  LogError (MessageNotFound mid)])
            | DiscordError =>
                (false, c,
                 [GetChannel cid; FetchMessage mid; EditMessage mid "" (build_embed w d);
                  LogError ErrorUpdatingMessage])
            end
        | DiscordNotFound =>
            (false, c, [GetChannel cid; FetchMessage mid; LogError (MessageNotFound mid)])
        | DiscordError =>
            (false, c, [GetChannel cid; FetchMessage mid; LogError ErrorUpdatingMessage])
        end
      else (false, c, [GetChannel cid; LogError (ChannelNotFound cid)])
  | _ => (false, c, [LogError CouldNotFetchStatistics])
  end.

(* ================================================================== *)
(** ** Scenarios *)

(** The listing of the specification's example. *)
Definition example_libraries : list library :=
  [ mkLibrary (JStr "1") (JStr "Movies") (JStr "movies");
    mkLibrary (JStr "2") (JStr "Shows") (JStr "tvshows");
    mkLibrary (JStr "3") (JStr "Playlists") (JStr "playlists") ].

Definition example_config : Config :=
  mkConfig (Some "http://jellyfin.local:8096") (Some "key") (Some 5) (Some 6) None.

(** A world given by its listing answer, its count answers and its answer
    to the fetch of the tracked message; everything else succeeds. *)
Definition world_of (folders : http_reply (option (list library)))
    (counts : nat -> http_reply (option Z)) (message : discord_reply) : World :=
  mkWorld (Response 200 (Some tt)) folders counts (fun _ => true) (Some 77)
          message DiscordOk "01.01.2025 10:00" "2025-01-01T10:00:00".

(** The example: 120 movies, 15 series. *)
Definition example_counts (n : nat) : http_reply (option Z) :=
  match n with
  | O => Response 200 (Some (Some 120))
  | _ => Response 200 (Some (Some 15))
  end.

Definition example_world : World :=
  world_of (Response 200 (Some (Some example_libraries))) example_counts DiscordOk.

(** Only playlists in the listing. *)
Definition playlists_only_world : World :=
  world_of (Response 200 (Some (Some [mkLibrary (JStr "3") (JStr "Playlists") (JStr "playlists")])))
           example_counts DiscordOk.

(** The tracked message was deleted. *)
Definition deleted_message_world : World :=
  world_of (Response 200 (Some (Some example_libraries))) example_counts DiscordNotFound.

(** The server cannot be reached. *)
Definition offline_world : World :=
  world_of GetRaises (fun _ => GetRaises) DiscordOk.

(** The listing is answered with status 203. *)
Definition status_203_world : World :=
  world_of (Response 203 (Some (Some example_libraries))) example_counts DiscordOk.

(** Two libraries named Movies: the count request of the first is answered
    with status 500, that of the second with 40 items; in between, the
    request for Shows is answered with status 203 and 15 items. *)
Definition mixed_libraries : list library :=
  [ mkLibrary (JStr "1") (JStr "Movies") (JStr "movies");
    mkLibrary (JStr "2") (JStr "Shows") (JStr "tvshows");
    mkLibrary (JStr "4") (JStr "Movies") (JStr "movies") ].

Definition mixed_counts (n : nat) : http_reply (option Z) :=
  match n with
  | O => Response 500 None
  | S O => Response 203 (Some (Some 15))
  | _ => Response 200 (Some (Some 40))
  end.

Definition mixed_world : World :=
  world_of (Response 200 (Some (Some mixed_libraries))) mixed_counts DiscordOk.

(* ================================================================== *)
(** ** Two statements of the specification, as worded *)

(** A count request is answered with a status in the 2xx range. *)
Definition status_2xx (status : Z) : Prop := 200 <= status < 300.

(** "For every retained library whose count request yields a non-2xx status
    or raises, that library's count is recorded as 0, the run is not
    aborted, and every other library's entry still appears with the count
    the server reported for it." *)
Definition failed_counts_are_zero_others_exact (w : World) (c : Config) : Prop :=
  forall libs,
    media_folders w = Response 200 (Some (Some libs)) ->
    forall n lib,
      nth_error (retained libs) n = Some lib ->
      (items w n = GetRaises \/
       exists status body, items w n = Response status body /\ ~ status_2xx status) ->
      exists report,
        fst (run (fetch_jellyfin_libraries w) c) = Val (Some report) /\
        stats_get report (lib_name lib) = Some 0 /\
        forall m lib' status count,
          m <> n ->
          nth_error (retained libs) m = Some lib' ->
          items w m = Response status (Some (Some count)) ->
          status_2xx status ->
          stats_get report (lib_name lib') = Some count.

(** "Library enumeration fails with the network-error signal exactly when
    the media-folders request does not return a 2xx status." *)
Definition fails_exactly_on_non_2xx (w : World) (c : Config) : Prop :=
  forall status body,
    media_folders w = Response status body ->
    (In (LogError (ErrorAccessingLibraries status))
        (trace (snd (run (fetch_jellyfin_libraries w) c)))
     <-> ~ status_2xx status).

(* ================================================================== *)
(** ** Vocabulary of the further properties *)

(** The durations slept, in order. *)
Fixpoint sleeps (tr : list event) : list Z :=
  match tr with
  | [] => []
  | Sleep seconds :: tr' => seconds :: sleeps tr'
  | _ :: tr' => sleeps tr'
  end.

(** The replies sent to the command's context, in order. *)
Fixpoint sent (tr : list event) : list string :=
  match tr with
  | [] => []
  | CtxSend content :: tr' => content :: sent tr'
  | _ :: tr' => sent tr'
  end.

(** The edits of a message attempted, in order. *)
Fixpoint edits (tr : list event) : list (Z * string * Embed) :=
  match tr with
  | [] => []
  | EditMessage id content embed :: tr' => (id, content, embed) :: edits tr'
  | _ :: tr' => edits tr'
  end.

(** A request goes to a URL under the stored base URL and carries the
    stored API key. *)
Definition authorised (c : Config) (ev : event) : Prop :=
  match ev with
  | HttpGet url tok =>
      jellyfin_api_key c = Some tok /\
      exists base path, jellyfin_url c = Some base /\ url = base ++ path
  | _ => True
  end.

(** A Discord call addresses channel [channel] and message [message], and an
    edit clears the text of the message. *)
Definition addresses (channel message : option Z) (ev : event) : Prop :=
  match ev with
  | GetChannel id => channel = Some id
  | FetchMessage id => message = Some id
  | EditMessage id content _ => message = Some id /\ content = ""
  | _ => True
  end.


(** The entries the loop records, one per retained library, in the order of
    the listing; [n] is the number of the first count request. *)
Fixpoint counts_in_order (w : World) (libs : list library) (n : nat) : stats :=
  match libs with
  | [] => []
  | lib :: rest =>
      if is_playlist lib then counts_in_order w rest n
      else (lib_name lib, recorded (items w n)) :: counts_in_order w rest (S n)
  end.

(** The answer of [test_connection]. *)
Definition connection_ok (w : World) (c : Config) : bool :=
  truthy (jellyfin_url c) && truthy (jellyfin_api_key c) &&
  match system_info w with
  | Response status _ => status =? 200
  | GetRaises => false
  end.

(** The lines [debug_api] gathers for one endpoint, given what it appends
    when the answer has status 200 and a decodable body. *)
Definition probe_lines {A} (reply : http_reply A) (url : string) (str_exn : exn -> string)
    (on_ok : A -> list string) (error_line : string) : list string :=
  (nl ++ "**Testing endpoint**: `" ++ url ++ "`") ::
  match reply with
  | GetRaises => ["❌ Exception: " ++ str_exn ClientError]
  | Response status body =>
      ("Status: " ++ str_of_int status) ::
      if status =? 200 then
        match body with
        | Some data => on_ok data
        | None => ["❌ Exception: " ++ str_exn DecodeError]
        end
      else [error_line]
  end.

Definition item_line (item : library) : string :=
  "- ID: " ++ format (dict_get_field (Id item))
  ++ ", Name: " ++ format (dict_get_field (Name item)).

(** The lines of the report of [debug_api], from the base URL and the first
    four characters of the API key. *)
Definition debug_lines (w : World) (version : jfield) (str_exn : exn -> string)
    (base key4 : string) : list string :=
  let head :=
    [ "**Jellyfin URL**: " ++ base;
      "**API Key** (first 4 characters): " ++ key4 ++ "..." ] in
  let info :=
    probe_lines (system_info w) (base ++ "/System/Info") str_exn
      (fun _ => ["Jellyfin Version: " ++ format_version version])
      "❌ Error accessing server information" in
  let folders :=
    probe_lines (media_folders w) (base ++ "/Library/MediaFolders") str_exn
      (fun data =>
         ("Number of libraries: " ++ str_of_int (Z.of_nat (length (listing data))))
         :: map item_line (listing data))
      "❌ Error accessing libraries" in
  (head ++ info ++ folders)%list.

(** A listing whose second entry has a null name. *)
Definition malformed_libraries : list library :=
  [ mkLibrary (JStr "1") (JStr "Movies") (JStr "movies");
    mkLibrary (JStr "9") Null (JStr "music");
    mkLibrary (JStr "2") (JStr "Shows") (JStr "tvshows") ].

Definition malformed_world : World :=
  world_of (Response 200 (Some (Some malformed_libraries))) example_counts DiscordOk.

(** What [test_connection] adds to the trace. *)
Definition connection_trace (w : World) (c : Config) : list event :=
  if truthy (jellyfin_url c) && truthy (jellyfin_api_key c) then
    HttpGet (base_url c ++ "/System/Info") (token c) ::
    match system_info w with
    | GetRaises => [LogError ExceptionTestingConnection]
    | Response status _ =>
        if status =? 200 then [] else [LogError (ConnectionFailed status)]
    end
  else [].

(** The channel exists, the message resolves, but editing it fails with
    "not found". *)
Definition edit_fails_world : World :=
  mkWorld (Response 200 (Some tt)) (Response 200 (Some (Some example_libraries)))
          example_counts (fun _ => true) (Some 77) DiscordOk DiscordNotFound
          "01.01.2025 10:00" "2025-01-01T10:00:00".

(** The channel is gone. *)
Definition no_channel_world : World :=
  mkWorld (Response 200 (Some tt)) (Response 200 (Some (Some example_libraries)))
          example_counts (fun _ => false) (Some 77) DiscordOk DiscordOk
          "01.01.2025 10:00" "2025-01-01T10:00:00".

(** A configuration with everything but the API key. *)
Definition keyless_config : Config :=
  mkConfig (Some "http://jellyfin.local:8096") None (Some 5) (Some 6) None.

(** The placeholder message cannot be sent to the channel. *)
Definition no_send_world : World :=
  mkWorld (Response 200 (Some tt)) (Response 200 (Some (Some example_libraries)))
          example_counts (fun _ => true) None DiscordOk DiscordOk
          "01.01.2025 10:00" "2025-01-01T10:00:00".

(* ================================================================== *)
(** ** Strings *)

Section Strings.

Local Open Scope nat_scope.

Lemma append_nil_r (s : string) : s ++ "" = s.
Proof. induction s; simpl; congruence. Qed.

Lemma append_assoc (a b c : string) : (a ++ b) ++ c = a ++ b ++ c.
Proof. induction a; simpl; congruence. Qed.

Lemma append_inj_l (a x y : string) : a ++ x = a ++ y -> x = y.
Proof. induction a; simpl; intros H; [assumption | injection H; auto]. Qed.

Lemma prefix_iff (p s : string) :
  prefix p s = true <-> exists t, s = p ++ t.
Proof.
  revert s; induction p as [|c p IH]; intros s.
  - split; [intros _; exists s; reflexivity | intros _; destruct s; reflexivity].
  - destruct s as [|c' s]; simpl.
    + split; [discriminate | intros [t H]; discriminate].
    + destruct (ascii_dec c c') as [->|Hne].
      * rewrite IH. split; intros [t H]; exists t; [subst; reflexivity | injection H; auto].
      * split; [discriminate | intros [t H]; injection H; intros; congruence].
Qed.

Lemma str_in_iff (p s : string) :
  str_in p s = true <-> exists a b, s = a ++ p ++ b.
Proof.
  induction s as [|c s IH]; cbn [str_in].
  - rewrite orb_false_r, prefix_iff. split.
    + intros [t H]. exists "", t. exact H.
    + intros [a [b H]]. destruct a; simpl in H; [exists b; exact H | discriminate].
  - rewrite orb_true_iff, prefix_iff, IH. split.
    + intros [[t H] | [a [b H]]].
      * exists "", t. exact H.
      * exists (String c a), b. simpl. congruence.
    + intros [a [b H]]. destruct a as [|c' a]; simpl in H.
      * left. exists b. exact H.
      * right. exists a, b. injection H; auto.
Qed.

Lemma lower_app (a b : string) : lower (a ++ b) = lower a ++ lower b.
Proof. induction a; simpl; congruence. Qed.

(** A split of [lower s] comes from a split of [s]. *)
Lemma lower_split (x y s : string) :
  lower s = x ++ y -> exists s1 s2, s = s1 ++ s2 /\ lower s1 = x /\ lower s2 = y.
Proof.
  revert s; induction x as [|c x IH]; intros s H; simpl in H.
  - exists "", s. auto.
  - destruct s as [|c' s]; simpl in H; [discriminate|].
    injection H as Hc Hs. destruct (IH _ Hs) as [s1 [s2 [E [H1 H2]]]].
    exists (String c' s1), s2. simpl. repeat split; congruence.
Qed.

(** The playlist test of the loop is the case-insensitive substring test. *)
Lemma playlist_test_iff (name : string) :
  str_in "playlist" (lower name) = true <-> playlist_any_case name.
Proof.
  rewrite str_in_iff. unfold playlist_any_case. split.
  - intros [a [b H]].
    destruct (lower_split _ _ _ H) as [s1 [s2 [E [H1 H2]]]].
    destruct (lower_split _ _ _ H2) as [m [t [E2 [H3 H4]]]].
    exists s1, m, t. subst. auto.
  - intros [a [m [b [E H]]]]. exists (lower a), (lower b).
    subst. rewrite !lower_app, H. reflexivity.
Qed.

(** The first disjunct of the television test is subsumed by the second. *)
Lemma is_tv_iff (collection_type : string) :
  is_tv collection_type = true <-> str_in "tv" collection_type = true.
Proof.
  unfold is_tv. rewrite orb_true_iff. split; [|auto].
  intros [H|H]; [|exact H].
  apply str_in_iff in H. destruct H as [a [b H]].
  apply str_in_iff. exists a, ("shows" ++ b). exact H.
Qed.

(** The two forms of the count query differ. *)
Lemma items_url_forms (url id : string) :
  url ++ "/Items?ParentId=" ++ id ++ "&IncludeItemTypes=Series&Recursive=true&Limit=0"
  <> url ++ "/Items?ParentId=" ++ id ++ "&Recursive=true&Limit=0".
Proof.
  intros H. apply append_inj_l in H.
  change ("/Items?ParentId=" ++ id ++ "&IncludeItemTypes=Series&Recursive=true&Limit=0")
    with ("/Items?ParentId=" ++ (id ++ "&IncludeItemTypes=Series&Recursive=true&Limit=0")) in H.
  apply (append_inj_l "/Items?ParentId=") in H.
  apply append_inj_l in H. discriminate.
Qed.

End Strings.

(* ================================================================== *)
(** ** The dict of counts *)

Section Stats.

Lemma stats_set_keys (d : stats) (k k' : string) (v : Z) :
  In k (map fst (stats_set d k' v)) <-> k = k' \/ In k (map fst d).
Proof.
  induction d as [|[a b] d IH]; simpl.
  - intuition.
  - destruct (String.eqb_spec a k') as [->|Hne]; simpl.
    + intuition.
    + rewrite IH. intuition.
Qed.

Lemma stats_get_set (d : stats) (k k' : string) (v : Z) :
  stats_get (stats_set d k v) k' = if (k =? k')%string then Some v else stats_get d k'.
Proof.
  induction d as [|[a b] d IH]; simpl.
  - reflexivity.
  - destruct (String.eqb_spec a k) as [->|Hne]; simpl.
    + destruct (k =? k')%string; reflexivity.
    + rewrite IH. destruct (String.eqb_spec k k') as [->|Hne'].
      * apply String.eqb_neq in Hne. rewrite Hne. reflexivity.
      * reflexivity.
Qed.

Lemma stats_set_truthy (d : stats) (k : string) (v : Z) :
  stats_truthy (stats_set d k v) = true.
Proof. destruct d as [|[a b] d]; simpl; [|destruct (a =? k)%string]; reflexivity. Qed.

Variable w : World.

Lemma loop_stats_app (a b : list library) :
  forall n d,
    loop_stats w (a ++ b) n d
    = loop_stats w b (n + length (retained a)) (loop_stats w a n d).
Proof.
  induction a as [|lib a IH]; intros n d; simpl.
  - rewrite Nat.add_0_r. reflexivity.
  - unfold retained in *. simpl. destruct (is_playlist lib); simpl.
    + apply IH.
    + rewrite IH. simpl. rewrite Nat.add_succ_r. reflexivity.
Qed.

Lemma loop_stats_keys (libs : list library) :
  forall n d k,
    In k (map fst (loop_stats w libs n d)) <->
    In k (map fst d) \/ exists lib, In lib libs /\ is_playlist lib = false /\ lib_name lib = k.
Proof.
  induction libs as [|lib libs IH]; intros n d k; simpl.
  - split; [auto | intros [H | [lib [[] _]]]; exact H].
  - destruct (is_playlist lib) eqn:P.
    + rewrite IH. split.
      * intros [H | [l [Hl HP]]]; [auto | right; exists l; auto].
      * intros [H | [l [[<- | Hl] [HP E]]]]; [auto | congruence | right; exists l; auto].
    + rewrite IH, stats_set_keys. split.
      * intros [[-> | H] | [l [Hl HP]]]; [right; exists lib; auto | auto | right; exists l; auto].
      * intros [H | [l [[<- | Hl] [HP E]]]]; [auto | auto | right; exists l; auto].
Qed.

Lemma loop_stats_truthy (libs : list library) :
  forall n d,
    stats_truthy (loop_stats w libs n d)
    = stats_truthy d || match retained libs with [] => false | _ => true end.
Proof.
  induction libs as [|lib libs IH]; intros n d; simpl.
  - rewrite orb_false_r. reflexivity.
  - unfold retained in *. simpl. destruct (is_playlist lib); simpl.
    + apply IH.
    + rewrite IH, stats_set_truthy, orb_true_r. reflexivity.
Qed.

(** Libraries of other names leave an entry alone. *)
Lemma loop_stats_get_other (libs : list library) (k : string) :
  (forall lib, In lib libs -> is_playlist lib = false -> lib_name lib <> k) ->
  forall n d, stats_get (loop_stats w libs n d) k = stats_get d k.
Proof.
  induction libs as [|lib libs IH]; intros H n d; simpl.
  - reflexivity.
  - destruct (is_playlist lib) eqn:P.
    + apply IH. intros l Hl. apply H. right. exact Hl.
    + rewrite IH by (intros l Hl; apply H; right; exact Hl).
      rewrite stats_get_set.
      destruct (String.eqb_spec (lib_name lib) k) as [E|Hne]; [|reflexivity].
      exfalso. apply (H lib); auto. left. reflexivity.
Qed.

(** The entry of a name holds what the last retained library of that name
    recorded. *)
Lemma loop_stats_get_last (before after : list library) (lib : library) (n : nat) (d : stats) :
  is_playlist lib = false ->
  (forall lib', In lib' after -> is_playlist lib' = false -> lib_name lib' <> lib_name lib) ->
  stats_get (loop_stats w (before ++ lib :: after) n d) (lib_name lib)
  = Some (recorded (items w (n + length (retained before)))).
Proof.
  intros P H. rewrite loop_stats_app. simpl. rewrite P.
  rewrite loop_stats_get_other by exact H.
  rewrite stats_get_set, String.eqb_refl. reflexivity.
Qed.

End Stats.

(* ================================================================== *)
(** ** The loop over the libraries *)

Section Loop.

Variable w : World.
Variables url key : string.

Ltac step :=
  unfold try_except, http_get, json, not_none, log_err, emit, bind, ret, raise,
    config_read; simpl.

Lemma count_items_spec (n : nat) (lib : library) (d : stats) (s : Store) :
  count_items w url key n (dict_get_field (Id lib)) (lib_name lib) (lib_type lib) d s
  = (Val (stats_set d (lib_name lib) (recorded (items w n))),
     mkStore (config s) (trace s ++ count_trace w url key n lib)).
Proof.
  unfold count_items, count_trace, recorded, lib_query. step.
  destruct (items w n) as [|status [[c|]|]]; simpl;
    try destruct (status =? 200); simpl;
    rewrite <- ?app_assoc; reflexivity.
Qed.

Lemma for_libraries_spec (libs : list library) :
  forall n d s,
  exists evs,
    Forall loop_event evs /\
    for_libraries w url key libs n d s
    = ((if forallb readable libs then Val (loop_stats w libs n d) else Raise AttributeError),
       mkStore (config s) (trace s ++ evs)) /\
    (forallb readable libs = true -> evs = loop_trace w url key libs n).
Proof.
  induction libs as [|lib libs IH]; intros n d s.
  - exists []. simpl. rewrite app_nil_r. destruct s. auto.
  - cbn [for_libraries forallb loop_stats loop_trace].
    destruct (readable lib) eqn:R; unfold readable in R;
      destruct (is_playlist lib) eqn:P; unfold is_playlist in P;
      destruct (Name lib) as [| |name] eqn:N; try discriminate;
      unfold bind at 1; cbn [dict_get_field not_none ret raise];
      rewrite ?P in *; cbn [orb andb] in *; try discriminate.
    + apply IH.
    + pose proof (count_items_spec n lib d s) as HC.
      unfold lib_name, lib_type in HC. rewrite N in HC.
      destruct (IH (S n) (stats_set d name (recorded (items w n)))
             {| config := config s; trace := trace s ++ count_trace w url key n lib |})
             as [evs [Hev [Hrun Htr]]].
      assert (Hct : Forall loop_event (count_trace w url key n lib)).
      { unfold count_trace. constructor; [exact I|].
        destruct (items w n) as [|status [x|]]; simpl;
          try destruct (status =? 200); repeat constructor. }
      destruct (CollectionType lib) as [| |ct] eqn:C; try discriminate.
      all: cbn [dict_get_field dict_get_field_default format] in HC.
      all: unfold bind; cbn [dict_get_field_default not_none ret format].
      all: rewrite HC, Hrun; cbn [config trace]; rewrite <- app_assoc.
      all: exists (count_trace w url key n lib ++ evs)%list.
      all: unfold lib_name; rewrite N; cbn [dict_get_field format].
      all: split; [apply Forall_app; split; assumption|].
      all: split; [reflexivity | intros R'; rewrite (Htr R'); reflexivity].
    + exists []. rewrite app_nil_r. destruct s.
      split; [apply Forall_nil | split; [reflexivity | discriminate]].
    + exists []. rewrite app_nil_r. destruct s.
      split; [apply Forall_nil | split; [reflexivity | discriminate]].
    + destruct (CollectionType lib) as [| |ct] eqn:C; try discriminate.
      exists []. rewrite app_nil_r. destruct s.
      split; [apply Forall_nil | split; [reflexivity | discriminate]].
Qed.

End Loop.

(* ================================================================== *)
(** ** The fetch and the update *)

Section Run.

Variable w : World.

Lemma truthy_format (o : option string) : truthy o = true -> o = Some (format o).
Proof. destruct o as [[|a s]|]; simpl; intros H; try discriminate; reflexivity. Qed.

Lemma fetch_sound (s : Store) :
  exists o evs,
    fetch_outcome w (config s) o evs /\
    fetch_jellyfin_libraries w s = (Val o, mkStore (config s) (trace s ++ evs)).
Proof.
  unfold fetch_jellyfin_libraries.
  unfold bind at 1. unfold config_read at 1. unfold bind at 1. unfold config_read at 1.
  destruct (truthy (jellyfin_url (config s))) eqn:TU;
    [destruct (truthy (jellyfin_api_key (config s))) eqn:TK|]; cbn [negb orb].
  2,3: exists None, [LogError UrlOrKeyNotConfigured]; split;
    [apply FetchUnconfigured; rewrite TU, ?TK; reflexivity | reflexivity].
  assert (CF : configured (config s)) by (split; assumption).
  unfold try_except, http_get, bind at 1. unfold bind at 1. cbn [emit].
  destruct (media_folders w) as [|status body] eqn:MF.
  - exists None, [HttpGet (folders_url (config s)) (token (config s));
                  LogError GeneralExceptionFetching].
    split; [apply FetchRaises; assumption|].
    unfold raise, bind, log_err, emit, ret. cbn [config trace].
    rewrite <- app_assoc. reflexivity.
  - unfold ret at 1. cbn beta iota.
    destruct (Z.eqb_spec status 200) as [->|Hst].
    + destruct body as [body|].
      * unfold bind at 1. cbn [json ret]. unfold bind at 1.
        destruct (for_libraries_spec w (base_url (config s)) (token (config s))
                    (listing body) 0 []
                    {| config := config s;
                       trace := trace s ++ [HttpGet (folders_url (config s)) (token (config s))] |})
          as [evs [Hev [Hrun Htr]]].
        unfold base_url, token, listing, folders_url, base_url in Hrun. rewrite Hrun. cbn [config trace].
        destruct (forallb readable (listing body)) eqn:R; unfold listing in R; rewrite R.
        -- rewrite loop_stats_truthy. cbn [stats_truthy orb].
           rewrite (Htr eq_refl).
           destruct (retained match body with Some l => l | None => [] end) eqn:RT.
           ++ exists None. eexists. split; [apply (FetchEmpty w (config s) body); assumption|].
              unfold bind, log_err, emit, ret. cbn [config trace].
              rewrite <- !app_assoc. reflexivity.
           ++ eexists. eexists. split.
              ** apply (FetchReport w (config s) body); try assumption.
                 unfold listing. rewrite RT. discriminate.
              ** unfold ret. rewrite <- app_assoc. reflexivity.
        -- exists None. eexists. split.
           ++ apply (FetchUnreadable w (config s) body evs); assumption.
           ++ unfold bind, log_err, emit, ret. cbn [config trace].
              rewrite <- !app_assoc. reflexivity.
      * exists None. eexists. split; [apply FetchUndecodable; assumption|].
        unfold bind, json, raise, log_err, emit, ret. cbn [config trace].
        rewrite <- app_assoc. reflexivity.
    + exists None. eexists. split; [apply (FetchStatus w (config s) status body); assumption|].
      unfold bind, log_err, emit, ret. cbn [config trace].
      rewrite <- app_assoc. reflexivity.
Qed.

Lemma update_stats_incomplete (f : bool) (s : Store) :
  complete (config s) = false ->
  update_stats f w s
  = (Val false, mkStore (config s) (trace s ++ [LogError ConfigurationNotComplete])).
Proof.
  intros H. unfold update_stats, bind, config_read. fold (complete (config s)).
  rewrite H. reflexivity.
Qed.

Lemma update_stats_after_fetch (f : bool) (s : Store) (o : option stats) (evs : list event) :
  complete (config s) = true ->
  fetch_jellyfin_libraries w s = (Val o, mkStore (config s) (trace s ++ evs)) ->
  update_stats f w s
  = (Val (fst (fst (publish_outcome w (config s) o))),
     mkStore (snd (fst (publish_outcome w (config s) o)))
             (trace s ++ evs ++ snd (publish_outcome w (config s) o))).
Proof.
  intros H HF.
  unfold update_stats. unfold bind at 1 2 3. unfold config_read.
  fold (complete (config s)). rewrite H. cbn [negb].
  unfold try_except. unfold bind at 1. rewrite HF.
  unfold publish_outcome.
  destruct o as [[|x d]|].
  1,3: unfold bind, log_err, emit, ret; cbn [config trace fst snd];
    rewrite <- app_assoc; reflexivity.
  unfold bind at 1. cbn [emit config trace].
  destruct (get_channel w (int_of (update_channel_id (config s)))).
  - cbn [negb]. unfold bind at 1 2 3 4. cbn [emit config trace].
    destruct (fetch_message w); cbn [discord_call ret raise].
    + destruct (message_edit w); cbn [discord_call ret raise];
        unfold bind, config_set, log_err, emit, ret; cbn [config trace fst snd];
        rewrite <- !app_assoc; reflexivity.
    + unfold bind, log_err, emit, ret; cbn [config trace fst snd].
      rewrite <- !app_assoc. reflexivity.
    + unfold bind, log_err, emit, ret; cbn [config trace fst snd].
      rewrite <- !app_assoc. reflexivity.
  - cbn [negb]. unfold bind, log_err, emit, ret; cbn [config trace fst snd].
    rewrite <- !app_assoc. reflexivity.
Qed.

Lemma update_stats_complete (f : bool) (s : Store) :
  complete (config s) = true ->
  exists o evs,
    fetch_outcome w (config s) o evs /\
    fetch_jellyfin_libraries w s = (Val o, mkStore (config s) (trace s ++ evs)) /\
    update_stats f w s
    = (Val (fst (fst (publish_outcome w (config s) o))),
       mkStore (snd (fst (publish_outcome w (config s) o)))
               (trace s ++ evs ++ snd (publish_outcome w (config s) o))).
Proof.
  intros H. destruct (fetch_sound s) as [o [evs [HO HF]]].
  exists o, evs. split; [exact HO|]. split; [exact HF|].
  apply update_stats_after_fetch; assumption.
Qed.

End Run.

(* ================================================================== *)
(** ** Events of a run *)

Section Events.

Variable w : World.

Lemma requests_app (a b : list event) : requests (a ++ b) = (requests a ++ requests b)%list.
Proof.
  induction a as [|ev a IH]; simpl; [reflexivity|].
  destruct ev; simpl; congruence.
Qed.

Lemma requests_count_trace (url key : string) (n : nat) (lib : library) :
  requests (count_trace w url key n lib) = [lib_query url lib].
Proof.
  unfold count_trace. simpl.
  destruct (items w n) as [|status [x|]]; simpl;
    try destruct (status =? 200); reflexivity.
Qed.

Lemma requests_loop_trace (url key : string) (libs : list library) :
  forall n, requests (loop_trace w url key libs n) = map (lib_query url) (retained libs).
Proof.
  induction libs as [|lib libs IH]; intros n; [reflexivity|].
  unfold retained in *. cbn [loop_trace filter].
  destruct (is_playlist lib); cbn [negb map].
  - apply IH.
  - rewrite requests_app, requests_count_trace, IH. reflexivity.
Qed.

Lemma loop_trace_events (url key : string) (libs : list library) :
  forall n, Forall loop_event (loop_trace w url key libs n).
Proof.
  induction libs as [|lib libs IH]; intros n; cbn [loop_trace]; [constructor|].
  destruct (is_playlist lib); [apply IH|].
  apply Forall_app. split; [|apply IH].
  unfold count_trace. constructor; [exact I|].
  destruct (items w n) as [|status [x|]]; simpl;
    try destruct (status =? 200); repeat constructor.
Qed.

Lemma loop_event_fetch_event (ev : event) : loop_event ev -> fetch_event ev.
Proof. destruct ev as [| e | | | | | | |]; try destruct e; simpl; auto. Qed.

Lemma fetch_outcome_events (c : Config) (o : option stats) (evs : list event) :
  fetch_outcome w c o evs -> Forall fetch_event evs.
Proof.
  intros H. destruct H; repeat constructor;
    try (apply Forall_app; split; [|repeat constructor]);
    try (eapply Forall_impl; [apply loop_event_fetch_event|]);
    try assumption; apply loop_trace_events.
Qed.

(** A report comes only from a listing with a retained library. *)
Lemma fetch_outcome_report (c : Config) (d : stats) (evs : list event) :
  fetch_outcome w c (Some d) evs ->
  exists body,
    configured c /\
    media_folders w = Response 200 (Some body) /\
    forallb readable (listing body) = true /\
    retained (listing body) <> [] /\
    d = loop_stats w (listing body) 0 [] /\
    evs = HttpGet (folders_url c) (token c)
            :: loop_trace w (base_url c) (token c) (listing body) 0.
Proof.
  intros H. inversion H; subst. exists body. auto 10.
Qed.

(** The empty-result record comes only from a listing with no retained
    library. *)
Lemma fetch_outcome_empty (c : Config) (o : option stats) (evs : list event) :
  fetch_outcome w c o evs ->
  In (LogError NoStatisticsFound) evs ->
  o = None /\ configured c /\
  exists body, media_folders w = Response 200 (Some body) /\ retained (listing body) = [].
Proof.
  assert (L : forall l, Forall loop_event l -> ~ In (LogError NoStatisticsFound) l).
  { intros l Hl Hin. rewrite Forall_forall in Hl. apply (Hl _ Hin). }
  intros H Hin. destruct H; simpl in Hin.
  - destruct Hin as [E|[]]; discriminate.
  - destruct Hin as [E|[E|[]]]; discriminate.
  - destruct Hin as [E|[E|[]]]; discriminate.
  - destruct Hin as [E|[E|[]]]; discriminate.
  - destruct Hin as [E|Hin]; [discriminate|].
    apply in_app_or in Hin. destruct Hin as [Hin|[E|[]]]; [|discriminate].
    exfalso. apply (L _ H2 Hin).
  - repeat split; try apply H. exists body. auto.
  - destruct Hin as [E|Hin]; [discriminate|].
    exfalso. apply (L _ (loop_trace_events _ _ _ _) Hin).
Qed.

(** The two ways a run over a readable listing ends. *)
Lemma fetch_outcome_listing (c : Config) (body : option (list library))
    (o : option stats) (evs : list event) :
  configured c ->
  media_folders w = Response 200 (Some body) ->
  forallb readable (listing body) = true ->
  fetch_outcome w c o evs ->
  (retained (listing body) = [] /\ o = None /\
   evs = HttpGet (folders_url c) (token c)
           :: loop_trace w (base_url c) (token c) (listing body) 0
           ++ [LogError NoStatisticsFound])
  \/
  (retained (listing body) <> [] /\ o = Some (loop_stats w (listing body) 0 []) /\
   evs = HttpGet (folders_url c) (token c)
           :: loop_trace w (base_url c) (token c) (listing body) 0).
Proof.
  intros [C1 C2] MF R H.
  inversion H; subst;
    repeat match goal with
    | X : media_folders w = _ |- _ => rewrite MF in X; inversion X; subst; clear X
    | X : truthy _ && truthy _ = false |- _ => rewrite C1, C2 in X; discriminate
    | X : ?a <> ?a |- _ => exfalso; apply X; reflexivity
    | X : forallb readable _ = false |- _ => rewrite R in X; discriminate
    end; auto.
Qed.

(** The way a run ends when the listing is not answered with status 200. *)
Lemma fetch_outcome_status (c : Config) (status : Z) (body : option (option (list library)))
    (o : option stats) (evs : list event) :
  configured c ->
  media_folders w = Response status body ->
  status <> 200 ->
  fetch_outcome w c o evs ->
  o = None /\
  evs = [HttpGet (folders_url c) (token c); LogError (ErrorAccessingLibraries status)].
Proof.
  intros [C1 C2] MF NE H.
  inversion H; subst;
    repeat match goal with
    | X : media_folders w = _ |- _ => rewrite MF in X; inversion X; subst; clear X
    | X : truthy _ && truthy _ = false |- _ => rewrite C1, C2 in X; discriminate
    | X : ?a <> ?a |- _ => exfalso; apply X; reflexivity
    end; auto.
Qed.

(** A report is never empty. *)
Lemma fetch_outcome_nonempty (c : Config) (d : stats) (evs : list event) :
  fetch_outcome w c (Some d) evs -> d <> [].
Proof.
  intros H E. apply fetch_outcome_report in H.
  destruct H as [body [_ [_ [_ [NE [D _]]]]]].
  pose proof (loop_stats_truthy w (listing body) 0 []) as T.
  rewrite <- D, E in T. cbn [stats_truthy orb] in T.
  destruct (retained (listing body)); [apply NE; reflexivity | discriminate].
Qed.

(** The embed has one field per entry of the report, under its name. *)
Lemma embed_field_names (d : stats) :
  map fst (fields (build_embed w d)) = map fst d.
Proof.
  unfold build_embed. cbn [fields]. rewrite map_map.
  apply map_ext. intros [name count]. reflexivity.
Qed.

Lemma readable_name (lib : library) :
  readable lib = true -> exists name, Name lib = JStr name.
Proof.
  unfold readable. destruct (Name lib) as [| |name]; try discriminate.
  intros _. exists name. reflexivity.
Qed.

Lemma is_playlist_readable (lib : library) : is_playlist lib = true -> readable lib = true.
Proof.
  unfold is_playlist, readable. destruct (Name lib); try discriminate.
  intros ->. reflexivity.
Qed.

Lemma retained_nil_readable (libs : list library) :
  retained libs = [] -> forallb readable libs = true.
Proof.
  unfold retained. induction libs as [|lib libs IH]; simpl; [reflexivity|].
  destruct (is_playlist lib) eqn:P; simpl; [|discriminate].
  intros H. rewrite (is_playlist_readable _ P), (IH H). reflexivity.
Qed.

End Events.

(* ================================================================== *)
(** ** Properties of the report *)

(** C1. Whenever [fetch_jellyfin_libraries] produces a report, the listing
    was answered with status 200 and, for every library of the listing, the
    report has an entry under its name exactly when the name does not
    contain "playlist" in any letter case; the report has no other entry,
    and the fields of the published embed carry the names of the report. *)
Theorem playlists_excluded_from_report (w : World) (c : Config) (report : stats) :
  fst (run (fetch_jellyfin_libraries w) c) = Val (Some report) ->
  exists libs,
    media_folders w = Response 200 (Some (Some libs)) /\
    (forall lib name,
        In lib libs -> Name lib = JStr name ->
        (In name (map fst report) <-> ~ playlist_any_case name)) /\
    (forall name,
        In name (map fst report) -> exists lib, In lib libs /\ Name lib = JStr name) /\
    map fst (fields (build_embed w report)) = map fst report.
Proof.
  unfold run. intros H.
  destruct (fetch_sound w (mkStore c [])) as [o [evs [HO HF]]].
  rewrite HF in H. cbn [fst config] in *. injection H as ->.
  apply fetch_outcome_report in HO.
  destruct HO as [body [_ [MF [R [NE [-> _]]]]]].
  destruct body as [libs|]; [|exfalso; apply NE; reflexivity].
  cbn [listing] in *. exists libs. split; [exact MF|].
  rewrite forallb_forall in R.
  assert (K : forall name,
             In name (map fst (loop_stats w libs 0 [])) <->
             exists lib, In lib libs /\ Name lib = JStr name
                         /\ str_in "playlist" (lower name) = false).
  { intros name. rewrite loop_stats_keys. split.
    - intros [[] | [lib [Hl [P E]]]].
      destruct (readable_name _ (R _ Hl)) as [n N].
      unfold is_playlist in P. unfold lib_name in E. rewrite N in P, E.
      cbn [dict_get_field format] in E. subst n. exists lib. auto.
    - intros [lib [Hl [N P]]]. right. exists lib.
      unfold is_playlist, lib_name. rewrite N. auto. }
  split; [|split].
  - intros lib name Hl N. rewrite K, <- playlist_test_iff. split.
    + intros [lib' [_ [_ P]]]. congruence.
    + intros P. exists lib. repeat split; [exact Hl | exact N |].
      destruct (str_in "playlist" (lower name)); [exfalso; auto | reflexivity].
  - intros name Hin. apply K in Hin. destruct Hin as [lib [Hl [N _]]].
    exists lib. auto.
  - apply embed_field_names.
Qed.

(** The example of the specification: Movies and Shows stay, Playlists goes. *)
Lemma playlists_excluded_from_report_witness :
  exists libs,
    media_folders example_world = Response 200 (Some (Some libs)) /\
    (forall lib name,
        In lib libs -> Name lib = JStr name ->
        (In name (map fst [("Movies", 120); ("Shows", 15)]) <-> ~ playlist_any_case name)) /\
    (forall name,
        In name (map fst [("Movies", 120); ("Shows", 15)]) ->
        exists lib, In lib libs /\ Name lib = JStr name) /\
    map fst (fields (build_embed example_world [("Movies", 120); ("Shows", 15)]))
    = map fst [("Movies", 120); ("Shows", 15)].
Proof.
  apply (playlists_excluded_from_report example_world example_config
           [("Movies", 120); ("Shows", 15)]).
  reflexivity.
Defined.

(** C3. In a run over a readable listing the requests sent are the listing
    request followed by one count query per retained library, in order; the
    query of a library carries [IncludeItemTypes=Series] exactly when its
    lower-cased collection type contains "tvshows" or "tv", and is the plain
    recursive query otherwise; both end in [Limit=0]. *)
Theorem series_filter_iff_tv (w : World) (c : Config) (libs : list library) :
  configured c ->
  media_folders w = Response 200 (Some (Some libs)) ->
  forallb readable libs = true ->
  requests (trace (snd (run (fetch_jellyfin_libraries w) c)))
  = folders_url c :: map (lib_query (base_url c)) (retained libs)
  /\
  forall lib, In lib (retained libs) ->
    let id := format (dict_get_field (Id lib)) in
    let tv := str_in "tvshows" (lib_type lib) = true \/ str_in "tv" (lib_type lib) = true in
    (lib_query (base_url c) lib
     = base_url c ++ "/Items?ParentId=" ++ id
         ++ "&IncludeItemTypes=Series&Recursive=true&Limit=0" <-> tv)
    /\
    (lib_query (base_url c) lib
     = base_url c ++ "/Items?ParentId=" ++ id ++ "&Recursive=true&Limit=0" <-> ~ tv).
Proof.
  intros CF MF R. split.
  - unfold run.
    destruct (fetch_sound w (mkStore c [])) as [o [evs [HO HF]]].
    rewrite HF. cbn [snd trace config app] in *.
    destruct (fetch_outcome_listing w c (Some libs) o evs CF MF R HO)
      as [[_ [_ ->]] | [_ [_ ->]]]; cbn [listing requests]; f_equal.
    + rewrite requests_app, requests_loop_trace. cbn [requests]. apply app_nil_r.
    + apply requests_loop_trace.
  - intros lib _ id tv. unfold lib_query, items_url. fold id.
    assert (T : is_tv (lib_type lib) = true <-> tv).
    { unfold is_tv. rewrite orb_true_iff. reflexivity. }
    destruct (is_tv (lib_type lib)) eqn:E.
    + split; split; intros H.
      * apply T. reflexivity.
      * reflexivity.
      * exfalso. apply (items_url_forms (base_url c) id). exact H.
      * exfalso. apply H, T. reflexivity.
    + split; split; intros H.
      * exfalso. apply (items_url_forms (base_url c) id). symmetry. exact H.
      * apply T in H. discriminate.
      * intros H'. apply T in H'. discriminate.
      * reflexivity.
Qed.

(** In the example the movie library is counted unfiltered and the show
    library by series. *)
Lemma series_filter_iff_tv_witness :
  requests (trace (snd (run (fetch_jellyfin_libraries example_world) example_config)))
  = [ "http://jellyfin.local:8096/Library/MediaFolders";
      "http://jellyfin.local:8096/Items?ParentId=1&Recursive=true&Limit=0";
      "http://jellyfin.local:8096/Items?ParentId=2&IncludeItemTypes=Series&Recursive=true&Limit=0" ].
Proof.
  apply (proj1 (series_filter_iff_tv example_world example_config example_libraries
                  (conj eq_refl eq_refl) eq_refl eq_refl)).
Defined.

(** C4. The empty-result record ("No statistics found") is logged exactly
    when the listing was fetched and no library of it is retained (the
    listing is empty or holds only playlists); the fetch then returns no
    report and [update_stats] returns [False] without touching the tracked
    message or the configuration.  When a readable listing retains a
    library the fetch returns a non-empty report whatever the count
    requests answer, zero counts included. *)
Theorem empty_result_iff_nothing_retained (w : World) (c : Config) :
  configured c ->
  let out := run (fetch_jellyfin_libraries w) c in
  (In (LogError NoStatisticsFound) (trace (snd out)) <->
   exists body, media_folders w = Response 200 (Some body) /\ retained (listing body) = [])
  /\
  (In (LogError NoStatisticsFound) (trace (snd out)) ->
   fst out = Val None /\
   forall force_update,
     let up := run (update_stats force_update w) c in
     fst up = Val false /\
     config (snd up) = c /\
     Forall (fun ev => ~ publish_event ev) (trace (snd up)))
  /\
  (forall body,
     media_folders w = Response 200 (Some body) ->
     forallb readable (listing body) = true ->
     retained (listing body) <> [] ->
     exists report,
       fst out = Val (Some report) /\ report <> [] /\
       ~ In (LogError NoStatisticsFound) (trace (snd out))).
Proof.
  intros CF out. subst out. unfold run.
  destruct (fetch_sound w (mkStore c [])) as [o [evs [HO HF]]].
  rewrite HF. cbn [fst snd trace config app] in *.
  assert (NP : forall l, Forall fetch_event l -> Forall (fun ev => ~ publish_event ev) l).
  { intros l. apply Forall_impl. intros ev. destruct ev; simpl; auto. }
  split; [|split].
  - split.
    + intros Hin. apply (fetch_outcome_empty w c o evs HO Hin).
    + intros [body [MF RT]].
      destruct (fetch_outcome_listing w c body o evs CF MF (retained_nil_readable _ RT) HO)
        as [[_ [_ ->]] | [NE _]]; [|contradiction].
      right. apply in_or_app. right. left. reflexivity.
  - intros Hin. destruct (fetch_outcome_empty w c o evs HO Hin) as [-> _].
    split; [reflexivity|]. intros force_update.
    destruct (complete c) eqn:CP.
    + rewrite (update_stats_after_fetch w force_update (mkStore c []) None evs CP HF).
      cbn [publish_outcome fst snd config trace app].
      repeat split. apply Forall_app. split.
      * apply NP. apply (fetch_outcome_events w c None evs HO).
      * repeat constructor. simpl. auto.
    + rewrite (update_stats_incomplete w force_update (mkStore c []) CP).
      cbn [fst snd config trace app]. repeat split. repeat constructor. simpl. auto.
  - intros body MF R NE.
    destruct (fetch_outcome_listing w c body o evs CF MF R HO)
      as [[RT _] | [_ [-> ->]]]; [contradiction|].
    eexists. split; [reflexivity|]. split.
    + intros E. pose proof (loop_stats_truthy w (listing body) 0 []) as T.
      rewrite E in T. cbn [stats_truthy orb] in T.
      destruct (retained (listing body)); [apply NE; reflexivity | discriminate].
    + intros [E|Hin]; [discriminate|].
      pose proof (loop_trace_events w (base_url c) (token c) (listing body) 0) as L.
      rewrite Forall_forall in L. apply (L _ Hin).
Qed.

(** A listing of playlists only: nothing is published. *)
Lemma empty_result_iff_nothing_retained_witness :
  fst (run (fetch_jellyfin_libraries playlists_only_world) example_config) = Val None /\
  forall force_update,
    let up := run (update_stats force_update playlists_only_world) example_config in
    fst up = Val false /\
    config (snd up) = example_config /\
    Forall (fun ev => ~ publish_event ev) (trace (snd up)).
Proof.
  apply (proj1 (proj2 (empty_result_iff_nothing_retained playlists_only_world example_config
                         (conj eq_refl eq_refl)))).
  vm_compute. auto.
Defined.

(** C2, as worded, fails on [mixed_world]: the first library named Movies
    has a failing count request, yet the report holds 40 under Movies (the
    count of the second library of that name), and Shows, answered with the
    2xx status 203 and a count of 15, is recorded with 0. *)
Lemma failed_counts_counterexample :
  ~ failed_counts_are_zero_others_exact mixed_world example_config
  /\ fst (run (fetch_jellyfin_libraries mixed_world) example_config)
     = Val (Some [("Movies", 40); ("Shows", 0)]).
Proof.
  split; [|reflexivity].
  intros H.
  destruct (H mixed_libraries eq_refl 0%nat
              (mkLibrary (JStr "1") (JStr "Movies") (JStr "movies")) eq_refl)
    as [report [R [Z0 _]]].
  - right. exists 500, None. split; [reflexivity|].
    unfold status_2xx. lia.
  - vm_compute in R. injection R as <-. vm_compute in Z0. discriminate.
Qed.

(** C2, amended. In a run over a readable listing a failing count request
    never aborts the run: the fetch returns a report, and under the name of
    each retained library that no later retained library shares, the report
    holds 0 when the library's count request raised, was answered with a
    status other than 200 or had an undecodable body, and the server's
    [TotalRecordCount] (0 when the member is absent) when it was answered
    with status 200. *)
Theorem count_failure_contained (w : World) (c : Config)
    (before after : list library) (lib : library) :
  configured c ->
  media_folders w = Response 200 (Some (Some (before ++ lib :: after)%list)) ->
  forallb readable (before ++ lib :: after)%list = true ->
  is_playlist lib = false ->
  exists report,
    fst (run (fetch_jellyfin_libraries w) c) = Val (Some report) /\
    ((forall lib', In lib' after -> is_playlist lib' = false ->
                   lib_name lib' <> lib_name lib) ->
     let answer := items w (length (retained before)) in
     (count_failed answer -> stats_get report (lib_name lib) = Some 0) /\
     (forall count, answer = Response 200 (Some (Some count)) ->
                    stats_get report (lib_name lib) = Some count) /\
     (answer = Response 200 (Some None) -> stats_get report (lib_name lib) = Some 0)).
Proof.
  intros CF MF R P. unfold run.
  destruct (fetch_sound w (mkStore c [])) as [o [evs [HO HF]]].
  rewrite HF. cbn [fst config] in *.
  destruct (fetch_outcome_listing w c (Some (before ++ lib :: after)%list) o evs CF MF R HO)
    as [[RT _] | [_ [-> _]]]; cbn [listing] in *.
  - exfalso. unfold retained in RT. rewrite filter_app in RT. cbn [filter] in RT.
    rewrite P in RT. cbn [negb] in RT.
    apply app_eq_nil in RT. destruct RT as [_ RT]. discriminate.
  - eexists. split; [reflexivity|]. intros Last. cbv zeta.
    rewrite (loop_stats_get_last w before after lib 0 [] P Last).
    cbn [Nat.add]. unfold recorded, count_failed.
    repeat split.
    + destruct (items w (length (retained before))) as [|status [[n|]|]]; try reflexivity.
      intros [NE | E]; [|discriminate].
      apply Z.eqb_neq in NE. rewrite NE. reflexivity.
    + intros count ->. reflexivity.
    + intros ->. reflexivity.
Qed.

(** In [mixed_world] the second library named Movies is the last of its
    name: the report holds its 40 items although the first request failed. *)
Lemma count_failure_contained_witness :
  exists report,
    fst (run (fetch_jellyfin_libraries mixed_world) example_config) = Val (Some report) /\
    stats_get report "Movies" = Some 40.
Proof.
  destruct (count_failure_contained mixed_world example_config
              [ mkLibrary (JStr "1") (JStr "Movies") (JStr "movies");
                mkLibrary (JStr "2") (JStr "Shows") (JStr "tvshows") ]
              []
              (mkLibrary (JStr "4") (JStr "Movies") (JStr "movies"))
              (conj eq_refl eq_refl) eq_refl eq_refl eq_refl)
    as [report [R H]].
  exists report. split; [exact R|].
  apply H; [intros lib' []|reflexivity].
Defined.

(** C7, as worded, fails on [status_203_world]: the listing is answered with
    the 2xx status 203 and a well-formed body, and the fetch logs the
    listing error and returns no report without any count request. *)
Lemma non_200_listing_counterexample :
  ~ fails_exactly_on_non_2xx status_203_world example_config
  /\ run (fetch_jellyfin_libraries status_203_world) example_config
     = (Val None,
        mkStore example_config
          [ HttpGet "http://jellyfin.local:8096/Library/MediaFolders" "key";
            LogError (ErrorAccessingLibraries 203) ]).
Proof.
  split; [|reflexivity].
  intros H.
  destruct (H 203 (Some (Some example_libraries)) eq_refl) as [H1 _].
  apply H1.
  - vm_compute. auto.
  - unfold status_2xx. lia.
Qed.

(** C7, amended. The fetch fails with the listing-error record exactly when
    the media-folders request is answered with a status other than 200:
    every such answer, other 2xx codes included, ends the fetch with no
    report and no count request; an answer with status 200 and a readable
    listing is processed, giving the report of the retained libraries after
    one count request for each. *)
Theorem listing_fails_iff_status_not_200 (w : World) (c : Config)
    (status : Z) (body : option (option (list library))) :
  configured c ->
  media_folders w = Response status body ->
  let out := run (fetch_jellyfin_libraries w) c in
  (In (LogError (ErrorAccessingLibraries status)) (trace (snd out)) <-> status <> 200)
  /\
  (status <> 200 ->
   out = (Val None,
          mkStore c [ HttpGet (folders_url c) (token c);
                      LogError (ErrorAccessingLibraries status) ]))
  /\
  (status = 200 ->
   forall libs,
     body = Some (Some libs) ->
     forallb readable libs = true ->
     fst out = Val (if stats_truthy (loop_stats w libs 0 [])
                    then Some (loop_stats w libs 0 []) else None) /\
     requests (trace (snd out))
     = folders_url c :: map (lib_query (base_url c)) (retained libs)).
Proof.
  intros CF MF out. subst out. unfold run.
  destruct (fetch_sound w (mkStore c [])) as [o [evs [HO HF]]].
  rewrite HF. cbn [fst snd trace config app] in *.
  assert (A : status <> 200 ->
              o = None /\
              evs = [HttpGet (folders_url c) (token c);
                     LogError (ErrorAccessingLibraries status)]).
  { intros NE. apply (fetch_outcome_status w c status body o evs CF MF NE HO). }
  split; [|split].
  - split.
    + intros Hin E. subst status.
      pose proof (fetch_outcome_events w c o evs HO) as FE.
      destruct CF as [C1 C2].
      inversion HO; subst; simpl in Hin;
        repeat match goal with
        | X : media_folders w = _ |- _ => rewrite MF in X; inversion X; subst; clear X
        | X : truthy _ && truthy _ = false |- _ => rewrite C1, C2 in X; discriminate
        | X : ?a <> ?a |- _ => exfalso; apply X; reflexivity
        | X : _ \/ _ |- _ => destruct X as [X|X]; try discriminate
        | X : False |- _ => destruct X
        | X : In _ (_ ++ _) |- _ => apply in_app_or in X
        | X : In _ [_] |- _ => simpl in X
        | L : Forall loop_event ?l, X : In _ ?l |- _ =>
            rewrite Forall_forall in L; apply (L _ X)
        | X : In _ (loop_trace ?a ?b ?k ?l ?n) |- _ =>
            let L := fresh in
            pose proof (loop_trace_events a b k l n) as L;
            rewrite Forall_forall in L; apply (L _ X)
        end.
    + intros NE. destruct (A NE) as [_ ->]. right. left. reflexivity.
  - intros NE. destruct (A NE) as [-> ->]. destruct c. reflexivity.
  - intros -> libs -> R.
    destruct (fetch_outcome_listing w c (Some libs) o evs CF MF R HO)
      as [[RT [-> ->]] | [NE [-> ->]]]; cbn [listing requests] in *.
    + pose proof (loop_stats_truthy w libs 0 []) as T. rewrite RT in T.
      cbn [stats_truthy orb] in T. rewrite T. split; [reflexivity|].
      f_equal. rewrite requests_app, requests_loop_trace. cbn [requests].
      apply app_nil_r.
    + pose proof (loop_stats_truthy w libs 0 []) as T.
      destruct (retained libs) eqn:RT; [contradiction|].
      cbn [stats_truthy orb] in T. rewrite T. split; [reflexivity|].
      f_equal. rewrite requests_loop_trace, RT. reflexivity.
Qed.

(** Status 203 ends the fetch; status 200 gives the example's report. *)
Lemma listing_fails_iff_status_not_200_witness :
  run (fetch_jellyfin_libraries status_203_world) example_config
  = (Val None,
     mkStore example_config
       [ HttpGet (folders_url example_config) (token example_config);
         LogError (ErrorAccessingLibraries 203) ]).
Proof.
  apply (proj1 (proj2 (listing_fails_iff_status_not_200 status_203_world example_config
                         203 (Some (Some example_libraries))
                         (conj eq_refl eq_refl) eq_refl))).
  discriminate.
Defined.

(* ================================================================== *)
(** ** The update and the scheduler *)

Section Update.

Variable w : World.

Lemma fetch_event_not_config_set (evs : list event) :
  Forall fetch_event evs ->
  forall k v, ~ In (ConfigSet k v) evs.
Proof.
  intros H k v Hin. rewrite Forall_forall in H. apply (H _ Hin).
Qed.

Lemma fetch_event_not_message (evs : list event) :
  Forall fetch_event evs ->
  (forall id, ~ In (FetchMessage id) evs) /\
  (forall id content embed, ~ In (EditMessage id content embed) evs).
Proof.
  intros H. rewrite Forall_forall in H.
  split; intros; intros Hin; apply (H _ Hin).
Qed.

(** The publishing step writes the timestamp exactly when it succeeds. *)
Lemma publish_outcome_cases (c : Config) (o : option stats) :
  (fst (fst (publish_outcome w c o)) = true /\
   snd (fst (publish_outcome w c o)) = config_update K_last_update (VStr (now_iso w)) c /\
   In (ConfigSet K_last_update (VStr (now_iso w))) (snd (publish_outcome w c o)))
  \/
  (fst (fst (publish_outcome w c o)) = false /\
   snd (fst (publish_outcome w c o)) = c /\
   forall k v, ~ In (ConfigSet k v) (snd (publish_outcome w c o))).
Proof.
  unfold publish_outcome.
  destruct o as [[|x d]|]; [| destruct (get_channel w _);
    [destruct (fetch_message w); [destruct (message_edit w)| |] |] |];
    cbn [fst snd];
    try (left; repeat split; simpl; tauto);
    right; repeat split; intros k v Hin; simpl in Hin;
    repeat (destruct Hin as [Hin|Hin]; try discriminate); exact Hin.
Qed.

(** [update_stats] always returns. *)
Lemma update_stats_total (f : bool) (s : Store) :
  exists b c' evs, update_stats f w s = (Val b, mkStore c' (trace s ++ evs)).
Proof.
  destruct (complete (config s)) eqn:CP.
  - destruct (update_stats_complete w f s CP) as [o [evs [_ [_ HU]]]].
    rewrite HU. eauto.
  - rewrite (update_stats_incomplete w f s CP). eauto.
Qed.

(** An iteration of the scheduler ends with the weekly sleep, whatever the
    update returned. *)
Lemma background_iteration_spec (s : Store) :
  exists b c' evs,
    update_stats false w s = (Val b, mkStore c' (trace s ++ evs)) /\
    background_iteration w s
    = (Val tt, mkStore c' (trace s ++ evs ++ [Sleep 604800])).
Proof.
  destruct (update_stats_total false s) as [b [c' [evs HU]]].
  exists b, c', evs. split; [exact HU|].
  unfold background_iteration, try_except. unfold bind at 1. rewrite HU.
  unfold sleep, emit, ret. cbn [config trace]. rewrite <- app_assoc. reflexivity.
Qed.

(** After an iteration the loop goes on to the next one. *)
Lemma background_update_continues (fuel : nat) (closed : nat -> bool)
    (worlds : nat -> World) (i : nat) (s : Store) :
  closed i = false ->
  worlds i = w ->
  background_update (S fuel) closed worlds i s
  = background_update fuel closed worlds (S i) (snd (background_iteration w s)).
Proof.
  intros HC HW. cbn [background_update]. rewrite HC, HW.
  destruct (background_iteration_spec s) as [b [c' [evs [_ HI]]]].
  unfold bind. rewrite HI. reflexivity.
Qed.

End Update.

Section Slash.

Lemma endswith_iff (s suf : string) :
  endswith s suf = true <-> exists t, s = t ++ suf.
Proof.
  induction s as [|a s IH]; cbn [endswith].
  - rewrite orb_false_r, String.eqb_eq. split.
    + intros <-. exists "". reflexivity.
    + intros [t H]. destruct t; simpl in H; [exact H | discriminate].
  - rewrite orb_true_iff, String.eqb_eq, IH. split.
    + intros [<- | [t ->]]; [exists ""; reflexivity | exists (String a t); reflexivity].
    + intros [t H]. destruct t as [|b t]; simpl in H.
      * left. exact H.
      * right. exists t. injection H; auto.
Qed.

Lemma drop_last_app (t : string) (a : ascii) : drop_last (t ++ String a "") = t.
Proof.
  induction t as [|b t IH]; [reflexivity|].
  simpl. rewrite IH. destruct t; reflexivity.
Qed.

(** What is left of the slashes: the stored URL ends with a slash exactly
    when the given one ends with two. *)
Lemma strip_slash_trailing (jellyfin_url : string) :
  endswith (strip_slash jellyfin_url) "/" = true <-> endswith jellyfin_url "//" = true.
Proof.
  unfold strip_slash. destruct (endswith jellyfin_url "/") eqn:E.
  - apply endswith_iff in E. destruct E as [t ->].
    rewrite drop_last_app.
    rewrite !endswith_iff. split.
    + intros [u ->]. exists u. rewrite append_assoc. reflexivity.
    + intros [u H]. exists u.
      change "//" with ("/" ++ "/") in H. rewrite <- append_assoc in H.
      apply (f_equal drop_last) in H.
      rewrite !drop_last_app in H. exact H.
  - rewrite E. split; [discriminate|].
    intros H. apply endswith_iff in H. destruct H as [u ->].
    assert (T : endswith (u ++ "//") "/" = true).
    { apply endswith_iff. exists (u ++ "/"). rewrite append_assoc. reflexivity. }
    congruence.
Qed.

End Slash.

(** C5. At the failing inputs the scheduler does not back off: with nothing
    configured, and with a complete configuration but an unreachable
    server, [update_stats] returns [False] without raising and the
    iteration ends with the sleep of 604800 seconds; the handler that sleeps
    3600 seconds is not entered. *)
Theorem scheduled_failure_sleeps_a_week (w : World) :
  run (background_iteration w) default_config
  = (Val tt, mkStore default_config [LogError ConfigurationNotComplete; Sleep 604800])
  /\
  run (background_iteration offline_world) example_config
  = (Val tt,
     mkStore example_config
       [ HttpGet "http://jellyfin.local:8096/Library/MediaFolders" "key";
         LogError GeneralExceptionFetching;
         LogError CouldNotFetchStatistics;
         Sleep 604800 ]).
Proof. split; reflexivity. Qed.

(** C6. When the tracked message does not resolve, [update_stats] returns
    [False] without raising, edits nothing and leaves the configuration as
    it was; when the run reaches the publishing step, the trace ends with
    the fetch of the message and the message-not-found record.  The
    scheduler iteration returns normally and the loop enters its next
    iteration. *)
Theorem deleted_message_contained (force_update : bool) (w : World) (c : Config) :
  fetch_message w = DiscordNotFound ->
  let up := run (update_stats force_update w) c in
  fst up = Val false /\
  config (snd up) = c /\
  (forall id content embed, ~ In (EditMessage id content embed) (trace (snd up))) /\
  (complete c = true ->
   forall report,
     fst (run (fetch_jellyfin_libraries w) c) = Val (Some report) ->
     get_channel w (int_of (update_channel_id c)) = true ->
     trace (snd up)
     = (trace (snd (run (fetch_jellyfin_libraries w) c))
        ++ [ GetChannel (int_of (update_channel_id c));
             FetchMessage (int_of (update_message_id c));
             LogError (MessageNotFound (int_of (update_message_id c))) ])%list) /\
  fst (run (background_iteration w) c) = Val tt /\
  (forall fuel closed worlds i,
     closed i = false -> worlds i = w ->
     background_update (S fuel) closed worlds i (mkStore c [])
     = background_update fuel closed worlds (S i) (snd (run (background_iteration w) c))).
Proof.
  intros NF up. subst up. unfold run.
  assert (B : fst (background_iteration w (mkStore c [])) = Val tt).
  { destruct (background_iteration_spec w (mkStore c [])) as [b [c' [evs [_ HI]]]].
    rewrite HI. reflexivity. }
  assert (L : forall fuel closed worlds i,
             closed i = false -> worlds i = w ->
             background_update (S fuel) closed worlds i (mkStore c [])
             = background_update fuel closed worlds (S i)
                 (snd (background_iteration w (mkStore c [])))).
  { intros. apply background_update_continues; assumption. }
  destruct (complete c) eqn:CP.
  - destruct (update_stats_complete w force_update (mkStore c []) CP)
      as [o [evs [HO [HF HU]]]].
    rewrite HU, HF. cbn [fst snd config trace app] in *.
    destruct (fetch_event_not_message evs (fetch_outcome_events w c o evs HO)) as [_ NE].
    unfold publish_outcome. rewrite NF.
    assert (NE' : forall l,
               (forall id content embed, ~ In (EditMessage id content embed) l) ->
               forall id content embed, ~ In (EditMessage id content embed) (evs ++ l)).
    { intros l Hl id content embed Hin. apply in_app_or in Hin.
      destruct Hin as [Hin|Hin]; [apply (NE _ _ _ Hin) | apply (Hl _ _ _ Hin)]. }
    destruct o as [[|x d]|]; [| destruct (get_channel w _) eqn:GC |]; cbn [fst snd].
    + exfalso. apply (fetch_outcome_nonempty w c [] evs HO). reflexivity.
    + repeat split; try assumption.
      * apply NE'. intros id content embed Hin. simpl in Hin.
        repeat (destruct Hin as [Hin|Hin]; try discriminate). exact Hin.
    + repeat split; try assumption.
      * apply NE'. intros id content embed Hin. simpl in Hin.
        repeat (destruct Hin as [Hin|Hin]; try discriminate). exact Hin.
      * intros _ report _ E. discriminate.
    + repeat split; try assumption.
      * apply NE'. intros id content embed Hin. simpl in Hin.
        repeat (destruct Hin as [Hin|Hin]; try discriminate). exact Hin.
      * intros _ report E. discriminate.
  - rewrite (update_stats_incomplete w force_update (mkStore c []) CP).
    cbn [fst snd config trace app].
    repeat split; try assumption; try discriminate.
    intros id content embed [Hin|[]]. discriminate.
Qed.

(** The example with the tracked message deleted. *)
Lemma deleted_message_contained_witness :
  fst (run (update_stats false deleted_message_world) example_config) = Val false /\
  fst (run (background_iteration deleted_message_world) example_config) = Val tt.
Proof.
  destruct (deleted_message_contained false deleted_message_world example_config eq_refl)
    as [H1 [_ [_ [_ [H5 _]]]]].
  split; [exact H1 | exact H5].
Defined.

(** C8. At the failing input, a URL that ends with two slashes, the setup
    completes and the stored URL still ends with a slash. *)
Theorem setup_keeps_a_trailing_slash :
  let out := run (setup_jellyfin_stats example_world "http://jellyfin.local:8096//" "key" 5)
                 default_config in
  fst out = Val tt /\
  jellyfin_url (config (snd out)) = Some "http://jellyfin.local:8096/" /\
  endswith "http://jellyfin.local:8096/" "/" = true.
Proof. vm_compute. repeat split. Qed.

(** C9. [update_stats] does not use [force_update]: from the same store and
    with the same collaborators, any two values of the argument give the
    same result, the same configuration and the same trace of requests,
    Discord calls and configuration writes. *)
Theorem update_stats_ignores_force_update (force1 force2 : bool) (w : World) (s : Store) :
  update_stats force1 w s = update_stats force2 w s.
Proof. unfold update_stats. reflexivity. Qed.

(** C10. [update_stats] either returns [True], having written [last_update]
    (the only configuration write of the run), or returns [False], having
    written nothing and left the configuration as it was. *)
Theorem last_update_written_iff_success (force_update : bool) (w : World) (c : Config) :
  let up := run (update_stats force_update w) c in
  (fst up = Val true /\
   config (snd up) = config_update K_last_update (VStr (now_iso w)) c /\
   In (ConfigSet K_last_update (VStr (now_iso w))) (trace (snd up)))
  \/
  (fst up = Val false /\
   config (snd up) = c /\
   forall k v, ~ In (ConfigSet k v) (trace (snd up))).
Proof.
  intros up. subst up. unfold run.
  destruct (complete c) eqn:CP.
  - destruct (update_stats_complete w force_update (mkStore c []) CP)
      as [o [evs [HO [_ HU]]]].
    rewrite HU. cbn [fst snd config trace app] in *.
    pose proof (fetch_event_not_config_set evs (fetch_outcome_events w c o evs HO)) as NC.
    destruct (publish_outcome_cases w c o) as [[-> [-> Hin]] | [-> [-> Hno]]].
    + left. repeat split. apply in_or_app. right. exact Hin.
    + right. repeat split. intros k v Hin. apply in_app_or in Hin.
      destruct Hin as [Hin|Hin]; [apply (NC _ _ Hin) | apply (Hno _ _ Hin)].
  - rewrite (update_stats_incomplete w force_update (mkStore c []) CP).
    right. cbn [fst snd config trace app]. repeat split.
    intros k v [Hin|[]]. discriminate.
Qed.

(* ================================================================== *)
(** ** Further properties of the fetch *)

Section Order.

Variable w : World.

Lemma stats_set_fresh (d : stats) (k : string) (v : Z) :
  ~ In k (map fst d) -> stats_set d k v = (d ++ [(k, v)])%list.
Proof.
  induction d as [|[a b] d IH]; simpl; intros H; [reflexivity|].
  destruct (String.eqb_spec a k) as [->|Hne].
  - exfalso. apply H. left. reflexivity.
  - rewrite IH; [reflexivity|]. intros Hin. apply H. right. exact Hin.
Qed.

Lemma counts_in_order_names (libs : list library) :
  forall n, map fst (counts_in_order w libs n) = map lib_name (retained libs).
Proof.
  induction libs as [|lib libs IH]; intros n; [reflexivity|].
  unfold retained in *. cbn [counts_in_order filter].
  destruct (is_playlist lib); cbn [negb map fst]; [apply IH|].
  rewrite IH. reflexivity.
Qed.

Lemma counts_in_order_nth (libs : list library) :
  forall n i,
    nth_error (counts_in_order w libs n) i
    = option_map (fun lib => (lib_name lib, recorded (items w (n + i))))
                 (nth_error (retained libs) i).
Proof.
  induction libs as [|lib libs IH]; intros n i.
  - destruct i; reflexivity.
  - unfold retained in *. cbn [counts_in_order filter].
    destruct (is_playlist lib); cbn [negb]; [apply IH|].
    destruct i as [|i]; cbn [nth_error option_map].
    + rewrite Nat.add_0_r. reflexivity.
    + rewrite IH. rewrite Nat.add_succ_r. reflexivity.
Qed.

(** With distinct names every assignment of the loop adds an entry. *)
Lemma loop_stats_distinct (libs : list library) :
  forall n d,
    NoDup (map fst d ++ map lib_name (retained libs)) ->
    loop_stats w libs n d = (d ++ counts_in_order w libs n)%list.
Proof.
  induction libs as [|lib libs IH]; intros n d ND.
  - simpl. rewrite app_nil_r. reflexivity.
  - unfold retained in *. cbn [loop_stats counts_in_order filter] in *.
    destruct (is_playlist lib); cbn [negb map] in *; [apply IH; exact ND|].
    assert (F : ~ In (lib_name lib) (map fst d)).
    { intros Hin. apply NoDup_remove_2 in ND. apply ND.
      apply in_or_app. left. exact Hin. }
    rewrite (stats_set_fresh d _ _ F), IH.
    + rewrite <- app_assoc. reflexivity.
    + rewrite map_app, <- app_assoc. exact ND.
Qed.

Variables url key : string.

(** The loop stops at the first entry it cannot read, after the count
    requests of the entries before it. *)
Lemma for_libraries_unreadable (pre rest : list library) (bad : library) :
  forallb readable pre = true ->
  readable bad = false ->
  forall n d s,
    for_libraries w url key (pre ++ bad :: rest) n d s
    = (Raise AttributeError,
       mkStore (config s) (trace s ++ loop_trace w url key pre n)).
Proof.
  intros RP RB. induction pre as [|lib pre IH]; intros n d s.
  - cbn [app for_libraries loop_trace]. rewrite app_nil_r.
    unfold readable in RB.
    destruct (Name bad) as [| |name] eqn:N;
      unfold bind at 1; cbn [dict_get_field not_none ret raise];
      try (destruct s; reflexivity).
    destruct (str_in "playlist" (lower name)); [discriminate|].
    destruct (CollectionType bad); try discriminate.
    unfold bind at 1. cbn [dict_get_field_default not_none raise].
    destruct s; reflexivity.
  - cbn [forallb] in RP. apply andb_true_iff in RP. destruct RP as [RL RP].
    cbn [app for_libraries loop_trace].
    unfold readable in RL. destruct (is_playlist lib) eqn:P; unfold is_playlist in P;
      destruct (Name lib) as [| |name] eqn:N; try discriminate;
      unfold bind at 1; cbn [dict_get_field not_none ret]; rewrite P in *.
    + apply (IH RP).
    + cbn [orb] in RL.
      pose proof (count_items_spec w url key n lib d s) as HC.
      unfold lib_name, lib_type in HC. rewrite N in HC.
      destruct (CollectionType lib) as [| |ct] eqn:C; try discriminate.
      all: cbn [dict_get_field dict_get_field_default format] in HC.
      all: unfold bind; cbn [dict_get_field_default not_none ret format].
      all: rewrite HC, (IH RP); cbn [config trace]; rewrite <- app_assoc; reflexivity.
Qed.

Lemma first_unreadable (libs : list library) :
  forallb readable libs = false ->
  exists pre bad rest,
    libs = (pre ++ bad :: rest)%list /\
    forallb readable pre = true /\ readable bad = false.
Proof.
  induction libs as [|lib libs IH]; cbn [forallb]; [discriminate|].
  destruct (readable lib) eqn:R; cbn [andb].
  - intros H. destruct (IH H) as [pre [bad [rest [-> [RP RB]]]]].
    exists (lib :: pre), bad, rest. cbn [forallb]. rewrite R, RP. auto.
  - intros _. exists [], lib, libs. auto.
Qed.

End Order.

Section Malformed.

Variable w : World.

(** The fetch over a listing with an unreadable entry. *)
Lemma fetch_unreadable (s : Store) (body : option (list library))
    (pre rest : list library) (bad : library) :
  configured (config s) ->
  media_folders w = Response 200 (Some body) ->
  listing body = (pre ++ bad :: rest)%list ->
  forallb readable pre = true ->
  readable bad = false ->
  fetch_jellyfin_libraries w s
  = (Val None,
     mkStore (config s)
       (trace s
        ++ HttpGet (folders_url (config s)) (token (config s))
           :: loop_trace w (base_url (config s)) (token (config s)) pre 0
        ++ [LogError GeneralExceptionFetching])).
Proof.
  intros [TU TK] MF L RP RB.
  unfold fetch_jellyfin_libraries.
  unfold bind at 1. unfold config_read at 1. unfold bind at 1. unfold config_read at 1.
  rewrite TU, TK. cbn [negb orb].
  unfold try_except, http_get, bind at 1. unfold bind at 1. cbn [emit].
  rewrite MF. unfold ret at 1. cbn beta iota. cbn [Z.eqb Pos.eqb].
  unfold bind at 1. cbn [json ret]. unfold bind at 1.
  unfold listing in L. rewrite L.
  rewrite (for_libraries_unreadable w _ _ pre rest bad RP RB).
  unfold bind, log_err, emit, ret. cbn [config trace].
  unfold folders_url, base_url, token. rewrite <- !app_assoc. reflexivity.
Qed.

End Malformed.

Section FetchMore.

Variable w : World.

Lemma loop_trace_authorised (c : Config) (libs : list library) :
  configured c ->
  forall n, Forall (authorised c) (loop_trace w (base_url c) (token c) libs n).
Proof.
  intros [TU TK]. apply truthy_format in TU. apply truthy_format in TK.
  induction libs as [|lib libs IH]; intros n; cbn [loop_trace]; [constructor|].
  destruct (is_playlist lib); [apply IH|].
  apply Forall_app. split; [|apply IH].
  unfold count_trace. constructor.
  - split; [exact TK|].
    exists (base_url c). unfold lib_query, items_url.
    destruct (is_tv (lib_type lib)); eexists; (split; [exact TU | reflexivity]).
  - destruct (items w n) as [|status [x|]]; simpl;
      try destruct (status =? 200); repeat constructor.
Qed.

Lemma fetch_authorised (c : Config) (o : option stats) (evs : list event) :
  fetch_outcome w c o evs ->
  fetch_jellyfin_libraries w (mkStore c []) = (Val o, mkStore c ([] ++ evs)) ->
  Forall (authorised c) evs.
Proof.
  assert (F : configured c -> authorised c (HttpGet (folders_url c) (token c))).
  { intros [TU TK]. apply truthy_format in TU. apply truthy_format in TK.
    split; [exact TK|]. exists (base_url c), "/Library/MediaFolders". auto. }
  intros HO HF. destruct HO.
  - repeat constructor.
  - constructor; [apply F; assumption | repeat constructor].
  - constructor; [apply F; assumption | repeat constructor].
  - constructor; [apply F; assumption | repeat constructor].
  - destruct (first_unreadable _ H1) as [pre [bad [rest [L [RP RB]]]]].
    rewrite (fetch_unreadable w (mkStore c []) body pre rest bad H H0 L RP RB) in HF.
    cbn [config trace app] in HF. injection HF as <-.
    constructor; [apply F; assumption|].
    apply Forall_app. split; [apply loop_trace_authorised; assumption | repeat constructor].
  - constructor; [apply F; assumption|].
    apply Forall_app. split; [apply loop_trace_authorised; assumption | repeat constructor].
  - constructor; [apply F; assumption|].
    apply loop_trace_authorised; assumption.
Qed.

End FetchMore.

(** X1. Over a readable listing whose retained libraries have distinct
    names, the report has exactly one entry per retained library, in the
    order of the listing: the i-th entry carries the name of the i-th
    retained library and the count recorded for the i-th count request, and
    the i-th field of the embed shows that count in decimal. *)
Theorem report_follows_listing (w : World) (c : Config) (libs : list library) :
  configured c ->
  media_folders w = Response 200 (Some (Some libs)) ->
  forallb readable libs = true ->
  NoDup (map lib_name (retained libs)) ->
  retained libs <> [] ->
  exists report,
    fst (run (fetch_jellyfin_libraries w) c) = Val (Some report) /\
    length report = length (retained libs) /\
    forall i lib,
      nth_error (retained libs) i = Some lib ->
      nth_error report i = Some (lib_name lib, recorded (items w i)) /\
      nth_error (fields (build_embed w report)) i
      = Some (lib_name lib, str_of_int (recorded (items w i))).
Proof.
  intros CF MF R ND NE. unfold run.
  destruct (fetch_sound w (mkStore c [])) as [o [evs [HO HF]]].
  rewrite HF. cbn [fst config] in *.
  destruct (fetch_outcome_listing w c (Some libs) o evs CF MF R HO)
    as [[RT _] | [_ [-> _]]]; cbn [listing] in *; [contradiction|].
  rewrite (loop_stats_distinct w libs 0 []) by exact ND. cbn [app].
  eexists. split; [reflexivity|]. split.
  - rewrite <- (length_map fst (counts_in_order w libs 0)), counts_in_order_names.
    apply length_map.
  - intros i lib Hi.
    assert (E : nth_error (counts_in_order w libs 0) i
                = Some (lib_name lib, recorded (items w i))).
    { rewrite counts_in_order_nth, Hi. reflexivity. }
    split; [exact E|].
    unfold build_embed. cbn [fields]. rewrite nth_error_map, E. reflexivity.
Qed.

(** The example of the specification. *)
Lemma report_follows_listing_witness :
  exists report,
    fst (run (fetch_jellyfin_libraries example_world) example_config) = Val (Some report) /\
    length report = 2%nat /\
    nth_error report 1 = Some ("Shows", 15) /\
    nth_error (fields (build_embed example_world report)) 1 = Some ("Shows", "15").
Proof.
  destruct (report_follows_listing example_world example_config example_libraries
              (conj eq_refl eq_refl) eq_refl eq_refl)
    as [report [R [L H]]].
  - repeat constructor; simpl; intuition discriminate.
  - discriminate.
  - exists report. split; [exact R|]. split; [exact L|].
    apply (H 1%nat (mkLibrary (JStr "2") (JStr "Shows") (JStr "tvshows"))). reflexivity.
Defined.

(** X2. An entry the loop cannot read (a name that is not a string, or a
    null collection type on a library that is not a playlist) aborts the
    whole fetch: the count requests of the entries before it have been sent,
    their counts are dropped, the general-exception record is logged and no
    report is returned; [update_stats] then returns [False] without touching
    the tracked message or the configuration. *)
Theorem unreadable_entry_aborts (force_update : bool) (w : World) (c : Config)
    (body : option (list library)) (pre rest : list library) (bad : library) :
  configured c ->
  media_folders w = Response 200 (Some body) ->
  listing body = (pre ++ bad :: rest)%list ->
  forallb readable pre = true ->
  readable bad = false ->
  run (fetch_jellyfin_libraries w) c
  = (Val None,
     mkStore c
       (HttpGet (folders_url c) (token c)
          :: loop_trace w (base_url c) (token c) pre 0
          ++ [LogError GeneralExceptionFetching]))
  /\
  let up := run (update_stats force_update w) c in
  fst up = Val false /\
  config (snd up) = c /\
  Forall (fun ev => ~ publish_event ev) (trace (snd up)).
Proof.
  intros CF MF L RP RB. unfold run.
  pose proof (fetch_unreadable w (mkStore c []) body pre rest bad CF MF L RP RB) as HF.
  cbn [config trace app] in HF. split; [exact HF|]. cbv zeta.
  destruct (complete c) eqn:CP.
  - rewrite (update_stats_after_fetch w force_update (mkStore c []) None _ CP HF).
    cbn [publish_outcome fst snd config trace app].
    repeat split. constructor; [simpl; auto|].
    apply Forall_app. split; [|repeat constructor; simpl; auto].
    apply Forall_app. split; [|repeat constructor; simpl; auto].
    eapply Forall_impl; [|apply (loop_trace_events w)].
    intros ev. destruct ev as [| e | | | | | | |]; try destruct e; simpl; auto.
  - rewrite (update_stats_incomplete w force_update (mkStore c []) CP).
    cbn [fst snd config trace app]. repeat split. repeat constructor. simpl. auto.
Qed.

(** A null name after Movies: Movies is counted, then the run is dropped. *)
Lemma unreadable_entry_aborts_witness :
  run (fetch_jellyfin_libraries malformed_world) example_config
  = (Val None,
     mkStore example_config
       [ HttpGet "http://jellyfin.local:8096/Library/MediaFolders" "key";
         HttpGet "http://jellyfin.local:8096/Items?ParentId=1&Recursive=true&Limit=0" "key";
         LogError GeneralExceptionFetching ]).
Proof.
  apply (proj1 (unreadable_entry_aborts false malformed_world example_config
                  (Some malformed_libraries)
                  [mkLibrary (JStr "1") (JStr "Movies") (JStr "movies")]
                  [mkLibrary (JStr "2") (JStr "Shows") (JStr "tvshows")]
                  (mkLibrary (JStr "9") Null (JStr "music"))
                  (conj eq_refl eq_refl) eq_refl eq_refl eq_refl eq_refl)).
Defined.

(** X3. Every request of a run of [update_stats] carries the stored API key
    and goes to a URL that extends the stored base URL. *)
Theorem requests_are_authorised (force_update : bool) (w : World) (c : Config) :
  Forall (authorised c) (trace (snd (run (update_stats force_update w) c))).
Proof.
  unfold run. destruct (complete c) eqn:CP.
  - destruct (update_stats_complete w force_update (mkStore c []) CP)
      as [o [evs [HO [HF HU]]]].
    rewrite HU. cbn [snd config trace app] in *.
    apply Forall_app. split; [apply (fetch_authorised w c o evs HO HF)|].
    unfold publish_outcome.
    destruct o as [[|x d]|]; [| destruct (get_channel w _);
      [destruct (fetch_message w); [destruct (message_edit w)| |] |] |];
      cbn [snd]; repeat constructor.
  - rewrite (update_stats_incomplete w force_update (mkStore c []) CP).
    cbn [snd trace app]. repeat constructor.
Qed.

(* ================================================================== *)
(** ** Further properties of the update and of the commands *)

Section Shape.

Lemma sent_app (a b : list event) : sent (a ++ b) = (sent a ++ sent b)%list.
Proof. induction a as [|ev a IH]; simpl; [reflexivity|]. destruct ev; simpl; congruence. Qed.

Lemma sleeps_app (a b : list event) : sleeps (a ++ b) = (sleeps a ++ sleeps b)%list.
Proof. induction a as [|ev a IH]; simpl; [reflexivity|]. destruct ev; simpl; congruence. Qed.

Lemma edits_app (a b : list event) : edits (a ++ b) = (edits a ++ edits b)%list.
Proof. induction a as [|ev a IH]; simpl; [reflexivity|]. destruct ev; simpl; congruence. Qed.

(** The events of the fetch are requests and log records. *)
Lemma fetch_events_silent (evs : list event) :
  Forall fetch_event evs ->
  sent evs = [] /\ sleeps evs = [] /\ edits evs = [] /\
  forall channel message, Forall (addresses channel message) evs.
Proof.
  induction 1 as [|ev evs Hev _ [IH1 [IH2 [IH3 IH4]]]].
  - repeat split; constructor.
  - destruct ev; try contradiction; simpl; repeat split; auto;
      intros; constructor; simpl; auto.
Qed.

Lemma truthy_int_some (o : option Z) : truthy_int o = true -> o = Some (int_of o).
Proof. destruct o; simpl; [reflexivity | discriminate]. Qed.

Variable w : World.

(** What the publishing step adds to the trace. *)
Lemma publish_outcome_shape (c : Config) (o : option stats) :
  complete c = true ->
  let evs := snd (publish_outcome w c o) in
  Forall (addresses (update_channel_id c) (update_message_id c)) evs /\
  sent evs = [] /\ sleeps evs = [] /\ (length (edits evs) <= 1)%nat.
Proof.
  intros CP. unfold complete in CP.
  apply andb_true_iff in CP. destruct CP as [CP TM].
  apply andb_true_iff in CP. destruct CP as [_ TC].
  apply truthy_int_some in TM. apply truthy_int_some in TC.
  unfold publish_outcome.
  destruct o as [[|x d]|]; [| destruct (get_channel w _);
    [destruct (fetch_message w); [destruct (message_edit w)| |] |] |];
    cbn [snd sent sleeps edits length];
    repeat split; try lia;
    repeat (constructor; simpl; auto).
Qed.

(** A run of [update_stats] from any store. *)
Lemma update_stats_shape (f : bool) (s : Store) :
  exists (b : bool) (evs : list event),
    update_stats f w s
    = (Val b,
       mkStore (if b then config_update K_last_update (VStr (now_iso w)) (config s)
                else config s)
               (trace s ++ evs)) /\
    Forall (addresses (update_channel_id (config s)) (update_message_id (config s))) evs /\
    sent evs = [] /\ sleeps evs = [] /\ (length (edits evs) <= 1)%nat /\
    ~ In (LogError ErrorInBackgroundTask) evs /\
    (b = true -> In (ConfigSet K_last_update (VStr (now_iso w))) evs) /\
    (b = false -> forall k v, ~ In (ConfigSet k v) evs).
Proof.
  destruct (complete (config s)) eqn:CP.
  - destruct (update_stats_complete w f s CP) as [o [evs [HO [_ HU]]]].
    pose proof (fetch_outcome_events w _ _ _ HO) as FE.
    destruct (fetch_events_silent evs FE) as [S1 [S2 [S3 S4]]].
    destruct (publish_outcome_shape (config s) o CP) as [P1 [P2 [P3 P4]]].
    pose proof (fetch_event_not_config_set evs FE) as NC.
    assert (NB : ~ In (LogError ErrorInBackgroundTask)
                      (evs ++ snd (publish_outcome w (config s) o))).
    { intros Hin. apply in_app_or in Hin. destruct Hin as [Hin|Hin];
        [rewrite Forall_forall in FE; apply (FE _ Hin) |].
      revert Hin. unfold publish_outcome.
      destruct o as [[|x d]|]; [| destruct (get_channel w _);
        [destruct (fetch_message w); [destruct (message_edit w)| |] |] |];
        cbn [snd]; intros Hin; simpl in Hin;
        repeat (destruct Hin as [Hin|Hin]; try discriminate); exact Hin. }
    assert (A : Forall (addresses (update_channel_id (config s))
                                  (update_message_id (config s)))
                       (evs ++ snd (publish_outcome w (config s) o))).
    { apply Forall_app. split; [apply S4 | exact P1]. }
    destruct (publish_outcome_cases w (config s) o) as [[B [C Hin]] | [B [C Hno]]];
      [exists true, (evs ++ snd (publish_outcome w (config s) o))%list
      |exists false, (evs ++ snd (publish_outcome w (config s) o))%list].
    all: rewrite HU, B, C.
    all: split; [reflexivity|].
    all: rewrite sent_app, sleeps_app, edits_app, S1, S2, S3, P2, P3.
    all: split; [exact A|].
    all: split; [reflexivity|].
    all: split; [reflexivity|].
    all: split; [exact P4|].
    all: split; [exact NB|].
    + split; [|discriminate]. intros _. apply in_or_app. right. exact Hin.
    + split; [discriminate|]. intros _ k v Hin. apply in_app_or in Hin.
      destruct Hin as [Hin|Hin]; [apply (NC _ _ Hin) | apply (Hno _ _ Hin)].
  - exists false, [LogError ConfigurationNotComplete].
    rewrite (update_stats_incomplete w f s CP).
    split; [reflexivity|].
    split; [repeat constructor|].
    split; [reflexivity|].
    split; [reflexivity|].
    split; [simpl; lia|].
    split; [intros [Hin|[]]; discriminate|].
    split; [discriminate|].
    intros _ k v [Hin|[]]. discriminate.
Qed.

End Shape.

(** X4. Every Discord call of [update_stats] addresses the stored channel
    and the stored tracked message, an edit always clears the text of the
    message, and a run attempts at most one edit. *)
Theorem update_addresses_tracked_message (force_update : bool) (w : World) (c : Config) :
  let tr := trace (snd (run (update_stats force_update w) c)) in
  Forall (addresses (update_channel_id c) (update_message_id c)) tr /\
  (length (edits tr) <= 1)%nat.
Proof.
  unfold run. cbv zeta.
  destruct (update_stats_shape w force_update (mkStore c [])) as [b [evs [HU [A [_ [_ [E _]]]]]]].
  rewrite HU. cbn [snd trace config app] in *. auto.
Qed.

(** X5. When the configuration is complete, the fetch returns a report, the
    channel exists and both the fetch and the edit of the message succeed,
    [update_stats] returns [True]: after the requests of the fetch it looks
    the channel up, fetches the message, edits it once with the embed built
    from the report, and writes the timestamp. *)
Theorem successful_update (force_update : bool) (w : World) (c : Config) (report : stats) :
  complete c = true ->
  fst (run (fetch_jellyfin_libraries w) c) = Val (Some report) ->
  get_channel w (int_of (update_channel_id c)) = true ->
  fetch_message w = DiscordOk ->
  message_edit w = DiscordOk ->
  run (update_stats force_update w) c
  = (Val true,
     mkStore (config_update K_last_update (VStr (now_iso w)) c)
       (trace (snd (run (fetch_jellyfin_libraries w) c))
        ++ [ GetChannel (int_of (update_channel_id c));
             FetchMessage (int_of (update_message_id c));
             EditMessage (int_of (update_message_id c)) "" (build_embed w report);
             ConfigSet K_last_update (VStr (now_iso w)) ])).
Proof.
  unfold run. intros CP HR GC FM ME.
  destruct (fetch_sound w (mkStore c [])) as [o [evs [HO HF]]].
  rewrite HF in *. cbn [fst snd config trace app] in *. injection HR as ->.
  rewrite (update_stats_after_fetch w force_update (mkStore c []) _ evs CP HF).
  pose proof (fetch_outcome_nonempty w c report evs HO) as NE.
  unfold publish_outcome. cbn [config]. cbv zeta.
  destruct report as [|x d]; [contradiction|].
  rewrite GC, FM, ME. reflexivity.
Qed.

Lemma successful_update_witness :
  fst (run (update_stats false example_world) example_config) = Val true.
Proof.
  rewrite (successful_update false example_world example_config
             [("Movies", 120); ("Shows", 15)]
             eq_refl eq_refl eq_refl eq_refl eq_refl).
  reflexivity.
Defined.

(** X6. When the channel cannot be found, [update_stats] stops after the
    lookup: it logs the channel-not-found record, returns [False], neither
    fetches nor edits a message and leaves the configuration as it was. *)
Theorem missing_channel_stops_update (force_update : bool) (w : World) (c : Config)
    (report : stats) :
  complete c = true ->
  fst (run (fetch_jellyfin_libraries w) c) = Val (Some report) ->
  get_channel w (int_of (update_channel_id c)) = false ->
  run (update_stats force_update w) c
  = (Val false,
     mkStore c
       (trace (snd (run (fetch_jellyfin_libraries w) c))
        ++ [ GetChannel (int_of (update_channel_id c));
             LogError (ChannelNotFound (int_of (update_channel_id c))) ])).
Proof.
  unfold run. intros CP HR GC.
  destruct (fetch_sound w (mkStore c [])) as [o [evs [HO HF]]].
  rewrite HF in *. cbn [fst snd config trace app] in *. injection HR as ->.
  rewrite (update_stats_after_fetch w force_update (mkStore c []) _ evs CP HF).
  pose proof (fetch_outcome_nonempty w c report evs HO) as NE.
  unfold publish_outcome. cbn [config]. cbv zeta.
  destruct report as [|x d]; [contradiction|].
  rewrite GC. reflexivity.
Qed.

Lemma missing_channel_stops_update_witness :
  fst (run (update_stats false no_channel_world) example_config) = Val false.
Proof.
  rewrite (missing_channel_stops_update false no_channel_world example_config
             [("Movies", 120); ("Shows", 15)] eq_refl eq_refl eq_refl).
  reflexivity.
Defined.

(** X7. When the message resolves but the edit raises, [update_stats]
    returns [False] after that one attempt and leaves the configuration as
    it was; an edit that raises "not found" is logged with the same
    message-not-found record as a message that does not resolve, any other
    error with the error-updating record. *)
Theorem failed_edit_keeps_timestamp (force_update : bool) (w : World) (c : Config)
    (report : stats) :
  complete c = true ->
  fst (run (fetch_jellyfin_libraries w) c) = Val (Some report) ->
  get_channel w (int_of (update_channel_id c)) = true ->
  fetch_message w = DiscordOk ->
  message_edit w <> DiscordOk ->
  run (update_stats force_update w) c
  = (Val false,
     mkStore c
       (trace (snd (run (fetch_jellyfin_libraries w) c))
        ++ [ GetChannel (int_of (update_channel_id c));
             FetchMessage (int_of (update_message_id c));
             EditMessage (int_of (update_message_id c)) "" (build_embed w report);
             LogError (match message_edit w with
                       | DiscordNotFound => MessageNotFound (int_of (update_message_id c))
                       | _ => ErrorUpdatingMessage
                       end) ])).
Proof.
  unfold run. intros CP HR GC FM ME.
  destruct (fetch_sound w (mkStore c [])) as [o [evs [HO HF]]].
  rewrite HF in *. cbn [fst snd config trace app] in *. injection HR as ->.
  rewrite (update_stats_after_fetch w force_update (mkStore c []) _ evs CP HF).
  pose proof (fetch_outcome_nonempty w c report evs HO) as NE.
  unfold publish_outcome. cbn [config]. cbv zeta.
  destruct report as [|x d]; [contradiction|].
  rewrite GC, FM. destruct (message_edit w); [contradiction | reflexivity | reflexivity].
Qed.

Lemma failed_edit_keeps_timestamp_witness :
  fst (run (update_stats false edit_fails_world) example_config) = Val false /\
  config (snd (run (update_stats false edit_fails_world) example_config)) = example_config.
Proof.
  rewrite (failed_edit_keeps_timestamp false edit_fails_world example_config
             [("Movies", 120); ("Shows", 15)] eq_refl eq_refl eq_refl eq_refl).
  - split; reflexivity.
  - discriminate.
Defined.

(** X8. The completeness test of [update_stats] does not look at the API
    key: with the URL, the channel and the message set but no key, the run
    passes that test, the fetch refuses to start, no request is sent, both
    records are logged and the run returns [False]. *)
Theorem missing_api_key_sends_nothing (force_update : bool) (w : World) (c : Config) :
  complete c = true ->
  truthy (jellyfin_api_key c) = false ->
  run (update_stats force_update w) c
  = (Val false,
     mkStore c [LogError UrlOrKeyNotConfigured; LogError CouldNotFetchStatistics]).
Proof.
  unfold run. intros CP TK.
  assert (HF : fetch_jellyfin_libraries w (mkStore c [])
               = (Val None, mkStore c ([] ++ [LogError UrlOrKeyNotConfigured]))).
  { unfold fetch_jellyfin_libraries, bind, config_read. cbn [config].
    rewrite TK, orb_true_r. reflexivity. }
  rewrite (update_stats_after_fetch w force_update (mkStore c []) None _ CP HF).
  reflexivity.
Qed.

Lemma missing_api_key_sends_nothing_witness :
  run (update_stats false example_world) keyless_config
  = (Val false,
     mkStore keyless_config
       [LogError UrlOrKeyNotConfigured; LogError CouldNotFetchStatistics]).
Proof.
  apply (missing_api_key_sends_nothing false example_world keyless_config eq_refl eq_refl).
Defined.

Section Commands.

Variable w : World.

Lemma test_connection_spec (s : Store) :
  test_connection w s
  = (Val (connection_ok w (config s)),
     mkStore (config s) (trace s ++ connection_trace w (config s))).
Proof.
  unfold test_connection, connection_ok, connection_trace, base_url, token.
  unfold bind at 1. unfold config_read at 1. unfold bind at 1. unfold config_read at 1.
  destruct (truthy (jellyfin_url (config s)));
    [destruct (truthy (jellyfin_api_key (config s)))|]; cbn [negb orb andb].
  2,3: unfold ret; rewrite app_nil_r; destruct s; reflexivity.
  unfold try_except, http_get, log_err, bind, ret, raise, emit.
  destruct (system_info w) as [|status body]; cbn [config trace].
  - rewrite <- app_assoc. reflexivity.
  - destruct (status =? 200); cbn [config trace]; rewrite <- ?app_assoc; reflexivity.
Qed.



End Commands.



Section Setup.

Variable w : World.

Lemma emit_if (b : bool) (x y : event) (s : Store) :
  (if b then emit x else emit y) s = emit (if b then x else y) s.
Proof. destruct b; reflexivity. Qed.

(** The run of [setup_jellyfin_stats] when the placeholder message is
    sent. *)
Lemma setup_run (url api_key : string) (channel id : Z) (c : Config) :
  channel_send w = Some id ->
  let c1 := mkConfig (Some (strip_slash url)) (Some api_key) (Some channel)
                     (Some id) (last_update c) in
  exists (b : bool) (evs : list event),
    setup_jellyfin_stats w url api_key channel (mkStore c [])
    = (Val tt,
       mkStore (if b then config_update K_last_update (VStr (now_iso w)) c1 else c1)
         ([ ConfigSet K_jellyfin_url (VStr (strip_slash url));
            ConfigSet K_jellyfin_api_key (VStr api_key);
            ConfigSet K_update_channel_id (VInt channel);
            ChannelSend channel "Updating Freia library statistics...";
            ConfigSet K_update_message_id (VInt id) ]
          ++ connection_trace w c1
          ++ [CtxSend (if connection_ok w c1
                       then "Connection to Jellyfin has been tested and works!"
                       else "⚠️ Configuration saved, but the connection test failed. Check URL and API key.")]
          ++ evs
          ++ [CtxSend "Jellyfin stats configuration completed!"])) /\
    Forall (addresses (Some channel) (Some id)) evs /\
    sent evs = [].
Proof.
  intros CS c1.
  unfold setup_jellyfin_stats.
  unfold bind at 1. cbn [config_set config trace app].
  unfold bind at 1. cbn [config_set config trace app config_update jellyfin_url
                         jellyfin_api_key update_channel_id update_message_id last_update].
  unfold bind at 1. cbn [config_set config trace app config_update jellyfin_url
                         jellyfin_api_key update_channel_id update_message_id last_update].
  unfold bind at 1. cbn [emit config trace app].
  unfold bind at 1. rewrite CS. cbn [ret].
  unfold bind at 1. cbn [config_set config trace app config_update jellyfin_url
                         jellyfin_api_key update_channel_id update_message_id last_update].
  fold c1.
  unfold bind at 1. rewrite test_connection_spec. cbn [config trace].
  unfold bind at 1. rewrite emit_if. cbn [emit config trace].
  destruct (update_stats_shape w true
              (mkStore c1
                 (([ ConfigSet K_jellyfin_url (VStr (strip_slash url));
                     ConfigSet K_jellyfin_api_key (VStr api_key);
                     ConfigSet K_update_channel_id (VInt channel);
                     ChannelSend channel "Updating Freia library statistics...";
                     ConfigSet K_update_message_id (VInt id) ]
                   ++ connection_trace w c1)
                  ++ [if connection_ok w c1
                      then CtxSend "Connection to Jellyfin has been tested and works!"
                      else CtxSend "⚠️ Configuration saved, but the connection test failed. Check URL and API key."])))
    as [b [evs [HU [A [S _]]]]].
  exists b, evs. split; [|split; [exact A | exact S]].
  unfold bind. cbn [app] in HU |- *. rewrite HU. unfold emit. cbn [config trace].
  destruct b, (connection_ok w c1); cbn [app]; rewrite <- !app_assoc; reflexivity.
Qed.

End Setup.



(** X12. When the placeholder message cannot be sent, the command stops
    with that exception after it has already overwritten the URL, the key
    and the channel: the stored message id and timestamp are the previous
    ones, and neither the connection test nor an update is run. *)
Theorem setup_send_failure_is_partial (w : World) (url api_key : string)
    (channel : Z) (c : Config) :
  channel_send w = None ->
  run (setup_jellyfin_stats w url api_key channel) c
  = (Raise HTTPException,
     mkStore
       (mkConfig (Some (strip_slash url)) (Some api_key) (Some channel)
                 (update_message_id c) (last_update c))
       [ ConfigSet K_jellyfin_url (VStr (strip_slash url));
         ConfigSet K_jellyfin_api_key (VStr api_key);
         ConfigSet K_update_channel_id (VInt channel);
         ChannelSend channel "Updating Freia library statistics..." ]).
Proof.
  intros CS. unfold run, setup_jellyfin_stats, bind, config_set, emit, raise.
  cbn [config trace app]. rewrite CS. reflexivity.
Qed.

Lemma setup_send_failure_is_partial_witness :
  update_message_id
    (config (snd (run (setup_jellyfin_stats no_send_world "http://other:8096" "k2" 9)
                      example_config)))
  = Some 6.
Proof.
  rewrite (setup_send_failure_is_partial no_send_world "http://other:8096" "k2" 9
             example_config eq_refl).
  reflexivity.
Defined.

(** X13. The normalisation of [setup_jellyfin_stats] removes exactly one
    trailing slash when there is one and nothing otherwise: putting the
    slash back gives the URL that was typed, and the stored URL ends with a
    slash exactly when the typed one ends with two. *)
Theorem strip_slash_removes_one_slash (url : string) :
  strip_slash url ++ (if endswith url "/" then "/" else "") = url /\
  endswith (strip_slash url) "/" = endswith url "//".
Proof.
  split.
  - unfold strip_slash. destruct (endswith url "/") eqn:E.
    + apply endswith_iff in E. destruct E as [t ->].
      rewrite drop_last_app. reflexivity.
    + apply append_nil_r.
  - pose proof (strip_slash_trailing url) as H.
    destruct (endswith (strip_slash url) "/"), (endswith url "//");
      try reflexivity; destruct H as [H1 H2];
      [symmetry; apply H1 | apply H2]; reflexivity.
Qed.

Section Scheduler.

Variable closed : nat -> bool.
Variable worlds : nat -> World.



End Scheduler.



Section Debug.

Variable w : World.
Variable version : jfield.
Variable str_exn : exn -> string.

Lemma append_items_map (items : list library) :
  forall d, append_items d items = (d ++ map item_line items)%list.
Proof.
  induction items as [|item items IH]; intros d; cbn [append_items map].
  - symmetry. apply app_nil_r.
  - rewrite IH. unfold append_line, item_line. rewrite <- app_assoc. reflexivity.
Qed.

(** The run of [debug_api] once the URL and the key are set. *)
Lemma debug_api_spec (s : Store) :
  configured (config s) ->
  debug_api w version str_exn s
  = (Val tt,
     mkStore (config s)
       (trace s
        ++ [ HttpGet (base_url (config s) ++ "/System/Info") (token (config s));
             HttpGet (folders_url (config s)) (token (config s));
             CtxSend (join nl (debug_lines w version str_exn (base_url (config s))
                                 (take 4 (token (config s))))) ])).
Proof.
  intros [TU TK]. unfold debug_api.
  unfold bind at 1. unfold config_read at 1. unfold bind at 1. unfold config_read at 1.
  rewrite TU, TK. cbn [negb orb].
  unfold debug_lines, probe_lines, folders_url, base_url, token, listing.
  unfold try_except, http_get, json, bind, ret, raise, emit, append_line.
  destruct (system_info w) as [|st1 [b1|]]; destruct (media_folders w) as [|st2 [b2|]];
    cbn [config trace app];
    try destruct (st1 =? 200); try destruct (st2 =? 200);
    cbn [config trace app];
    rewrite ?append_items_map; cbn [app];
    rewrite <- ?app_assoc; reflexivity.
Qed.

End Debug.




(** X17. When the listing is answered with status 200, the answer of
    [debug_api] is the join of lines among which are the number of entries
    of the listing and one line with the id and the name of every entry:
    unlike the fetch, the command does not leave playlists out, and an entry
    without a name is shown as [None] instead of ending the command. *)
Theorem debug_lists_every_library (w : World) (version : jfield)
    (str_exn : exn -> string) (c : Config) (body : option (list library)) :
  configured c ->
  media_folders w = Response 200 (Some body) ->
  exists lines,
    sent (trace (snd (run (debug_api w version str_exn) c))) = [join nl lines] /\
    In ("Number of libraries: " ++ str_of_int (Z.of_nat (length (listing body)))) lines /\
    forall item,
      In item (listing body) ->
      In ("- ID: " ++ format (dict_get_field (Id item))
          ++ ", Name: " ++ format (dict_get_field (Name item))) lines.
Proof.
  intros CF MF. unfold run.
  rewrite (debug_api_spec w version str_exn (mkStore c []) CF).
  cbn [snd config trace app sent].
  eexists. split; [reflexivity|].
  unfold debug_lines. cbv zeta. cbn [app].
  assert (F : forall x,
             In x (("Number of libraries: "
                    ++ str_of_int (Z.of_nat (length (listing body))))
                   :: map item_line (listing body)) ->
             In x (probe_lines (media_folders w)
                     (base_url c ++ "/Library/MediaFolders") str_exn
                     (fun data =>
                        ("Number of libraries: "
                         ++ str_of_int (Z.of_nat (length (listing data))))
                        :: map item_line (listing data))
                     "❌ Error accessing libraries")).
  { intros x Hx. unfold probe_lines. rewrite MF. cbn [Z.eqb Pos.eqb].
    right. right. exact Hx. }
  split.
  - right. right. apply in_or_app. right. apply F. left. reflexivity.
  - intros item Hin. right. right. apply in_or_app. right. apply F. right.
    apply (in_map item_line) in Hin. exact Hin.
Qed.

(** The playlist library of the example is listed, and so is the entry with
    a null name. *)
Lemma debug_lists_every_library_witness :
  exists lines,
    sent (trace (snd (run (debug_api malformed_world Missing (fun _ => "error"))
                          example_config)))
    = [join nl lines] /\
    In "Number of libraries: 3" lines /\
    In "- ID: 9, Name: None" lines.
Proof.
  destruct (debug_lists_every_library malformed_world Missing (fun _ => "error")
              example_config (Some malformed_libraries) (conj eq_refl eq_refl) eq_refl)
    as [lines [S [N L]]].
  exists lines. split; [exact S|]. split; [exact N|].
  apply (L (mkLibrary (JStr "9") Null (JStr "music"))).
  right. left. reflexivity.
Defined.

(** X18. After a setup that completes, the command group shows the stored
    URL and channel, and never the key, provided the URL is not empty once
    its slash is removed and the channel id is not 0; a URL that is empty or
    a single slash is stored as the empty string, and the group then answers
    that nothing is configured.  With a subcommand the group sends
    nothing. *)
Theorem setup_then_show (w : World) (url api_key : string) (channel id : Z) (c : Config) :
  channel_send w = Some id ->
  let saved := config (snd (run (setup_jellyfin_stats w url api_key channel) c)) in
  sent (trace (snd (run (jellyfin_stats false) saved)))
  = [ if truthy (Some (strip_slash url)) && negb (channel =? 0)
      then "Current configuration:" ++ nl
           ++ "Jellyfin URL: " ++ strip_slash url ++ nl
           ++ "Update channel: <#" ++ str_of_int channel ++ ">"
      else "No saved configuration. Use !jellyfinstats setup to configure." ]
  /\ run (jellyfin_stats true) saved = (Val tt, mkStore saved []).
Proof.
  intros CS. unfold run. cbv zeta.
  destruct (setup_run w url api_key channel id c CS) as [b [evs [E _]]].
  rewrite E. cbn [snd config]. split; [|reflexivity].
  unfold jellyfin_stats, bind, config_read. cbn [negb config].
  destruct b;
    cbn [config_update jellyfin_url update_channel_id truthy_int int_of format];
    destruct (truthy (Some (strip_slash url)) && negb (channel =? 0)); reflexivity.
Qed.

Lemma setup_then_show_witness :
  sent (trace (snd (run (jellyfin_stats false)
                        (config (snd (run (setup_jellyfin_stats example_world "/" "key" 5)
                                          default_config))))))
  = ["No saved configuration. Use !jellyfinstats setup to configure."].
Proof.
  apply (setup_then_show example_world "/" "key" 5 77 default_config eq_refl).
Defined.

(** X19. No exception escapes the fetch or the update: whatever the
    collaborators answer, [fetch_jellyfin_libraries] returns a report or
    [None] and leaves the configuration as it was, and [update_stats]
    returns a boolean. *)
Theorem no_exception_escapes (force_update : bool) (w : World) (c : Config) :
  (exists report, fst (run (fetch_jellyfin_libraries w) c) = Val report) /\
  config (snd (run (fetch_jellyfin_libraries w) c)) = c /\
  (exists success, fst (run (update_stats force_update w) c) = Val success).
Proof.
  unfold run.
  destruct (fetch_sound w (mkStore c [])) as [o [evs [_ HF]]].
  destruct (update_stats_total w force_update (mkStore c [])) as [b [c' [ev' HU]]].
  rewrite HF, HU. cbn [fst snd config]. eauto.
Qed.
